(** * Verification model of the VEDA AI backend: quota ledger, web search
    gateway, model router and the quality-gate agents.

    Shallow embedding of
      app/services/web_search.py   (QuotaManager, WebSearchService)
      app/services/model_router.py (ModelRouter.generate)
      app/agents/critic.py, cross_verifier.py, fact_checker.py
      app/orchestrator.py          (Orchestrator.process_message)
    External services (HTTP APIs, LLM replies, the clock) are inputs of the
    model: every call to them reads an explicit "world" record. *)

From Stdlib Require Import String Ascii List Bool ZArith QArith Lia.
From Stdlib Require Import Lqa.
From stdpp Require Import base gmap strings.

Import ListNotations.
Local Open Scope string_scope.

(* ================================================================= *)
(** ** Python string helpers *)
(* ================================================================= *)

Module Py.

(** A one-character string from a code point (strings are Latin-1 here). *)
Definition chr (n : nat) : string := String (ascii_of_nat n) EmptyString.
Definition nl : string := chr 10.

(** [sub in s] *)
Definition contains (sub s : string) : bool :=
  match String.index 0 sub s with Some _ => true | None => false end.

(** [any(x in s for x in xs)] *)
Definition any_in (xs : list string) (s : string) : bool :=
  existsb (fun x => contains x s) xs.

(** [s in xs] for a list of strings *)
Definition mem (s : string) (xs : list string) : bool :=
  existsb (String.eqb s) xs.

(** [str.lower] on Latin-1 code points. *)
Definition lower_char (c : ascii) : ascii :=
  let n := nat_of_ascii c in
  if (((65 <=? n) && (n <=? 90)) || ((192 <=? n) && (n <=? 222) && negb (n =? 215)))%nat
  then ascii_of_nat (n + 32) else c.

Fixpoint lower (s : string) : string :=
  match s with
  | EmptyString => EmptyString
  | String c r => String (lower_char c) (lower r)
  end.

(** [str.upper] on ASCII letters (Latin-1 lower-case letters as well). *)
Definition upper_char (c : ascii) : ascii :=
  let n := nat_of_ascii c in
  if (((97 <=? n) && (n <=? 122)) || ((224 <=? n) && (n <=? 254) && negb (n =? 247)))%nat
  then ascii_of_nat (n - 32) else c.

Fixpoint upper (s : string) : string :=
  match s with
  | EmptyString => EmptyString
  | String c r => String (upper_char c) (upper r)
  end.

(** [str.isspace] for one Latin-1 character. *)
Definition is_space (c : ascii) : bool :=
  let n := nat_of_ascii c in
  (((9 <=? n) && (n <=? 13)) || ((28 <=? n) && (n <=? 32)) || (n =? 133) || (n =? 160))%nat.

Fixpoint lstrip (s : string) : string :=
  match s with
  | EmptyString => EmptyString
  | String c r => if is_space c then lstrip r else s
  end.

Definition rev_string (s : string) : string :=
  string_of_list_ascii (rev (list_ascii_of_string s)).

(** [str.strip()] *)
Definition strip (s : string) : string := rev_string (lstrip (rev_string (lstrip s))).

(** [s[:n]] *)
Definition take (n : nat) (s : string) : string := substring 0 n s.

(** [str.split(sep)] for a non-empty separator; [fuel] bounds the pieces. *)
Fixpoint split_fuel (fuel : nat) (sep s : string) : list string :=
  match fuel with
  | O => [s]
  | S f =>
      match String.index 0 sep s with
      | None => [s]
      | Some i =>
          substring 0 i s
            :: split_fuel f sep (substring (i + String.length sep)
                                    (String.length s - (i + String.length sep)) s)
      end
  end.

Definition split (sep s : string) : list string := split_fuel (S (String.length s)) sep s.

(** [xs[-1]] of a non-empty list *)
Definition last_of (xs : list string) : string := List.last xs "".

End Py.

Import Py.

(** [x == s] for an optional (nullable) Python string. *)
Definition option_eq_bool (x : option string) (s : string) : bool :=
  match x with Some y => String.eqb y s | None => false end.

(* ================================================================= *)
(** ** Quota ledger: [QuotaManager] (web_search.py) *)
(* ================================================================= *)

Module Quota.

(** [MONTHLY_QUOTAS]; a missing service has limit [float('inf')]. *)
Definition MONTHLY_QUOTAS : gmap string Z :=
  <["brave" := 2000%Z]> (<["tavily" := 100%Z]> ∅).

(** The usage dictionary: its ["month"] entry and the integer counters. *)
Record Usage := mkUsage { month : string; counts : gmap string Z }.

(** The manager: the in-memory [self.usage] and the JSON file
    [QUOTA_FILE] ([None]: absent or unreadable). *)
Record QuotaManager := mkQM { usage : Usage; quota_file : option Usage }.

(** [self.usage.get(service, 0)] *)
Definition get (u : Usage) (service : string) : Z :=
  default 0%Z (counts u !! service).

(** [_save_usage(data)]. The write is assumed to succeed: [_save_usage]
    catches a failed write and only prints it, leaving the file as it
    was, which this model does not represent. *)
Definition save_usage (data : Usage) (qm : QuotaManager) : QuotaManager :=
  mkQM (usage qm) (Some data).

(** [_create_new_month()]: [now] is [datetime.now().strftime("%Y-%m")]. *)
Definition create_new_month (now : string) (file : option Usage) : Usage * option Usage :=
  let data := mkUsage now (<["brave" := 0%Z]> (<["tavily" := 0%Z]>
                            (<["groq_fallback" := 0%Z]> ∅))) in
  (data, Some data).

(** [_load_usage()] *)
Definition load_usage (now : string) (file : option Usage) : Usage * option Usage :=
  match file with
  | Some data =>
      if String.eqb (month data) now then (data, file)
      else create_new_month now file
  | None => create_new_month now file
  end.

(** [QuotaManager.__init__] *)
Definition init (now : string) (file : option Usage) : QuotaManager :=
  let '(u, f) := load_usage now file in mkQM u f.

(** [can_use(service)] *)
Definition can_use (qm : QuotaManager) (service : string) : bool :=
  match MONTHLY_QUOTAS !! service with
  | Some limit => (get (usage qm) service <? limit)%Z
  | None => true
  end.

(** [record_usage(service)] *)
Definition record_usage (qm : QuotaManager) (service : string) : QuotaManager :=
  let u := usage qm in
  let u' := mkUsage (month u) (<[service := (get u service + 1)%Z]> (counts u)) in
  save_usage u' (mkQM u' (quota_file qm)).

(** [get_remaining(service)] ([None]: infinite). *)
Definition get_remaining (qm : QuotaManager) (service : string) : option Z :=
  match MONTHLY_QUOTAS !! service with
  | Some limit => Some (Z.max 0 (limit - get (usage qm) service))
  | None => None
  end.

(** Operations on one manager instance, each issued at a wall-clock month.
    Neither method reads the clock. *)
Inductive Op := CanUse (service : string) | RecordUsage (service : string).

Definition step (qm : QuotaManager) (op : string * Op) : QuotaManager * option bool :=
  match snd op with
  | CanUse s => (qm, Some (can_use qm s))
  | RecordUsage s => (record_usage qm s, None)
  end.

Fixpoint run (qm : QuotaManager) (ops : list (string * Op)) : QuotaManager * list (option bool) :=
  match ops with
  | [] => (qm, [])
  | op :: rest =>
      let '(qm1, out) := step qm op in
      let '(qm2, outs) := run qm1 rest in
      (qm2, out :: outs)
  end.

End Quota.

(* ================================================================= *)
(** ** Web search gateway: [WebSearchService] (web_search.py) *)
(* ================================================================= *)

Module Search.

Import Quota.

(** One entry of a ["results"] list. [sr_is_fallback] and
    [sr_is_ai_summary] are the optional flags some sources add. *)
Record SearchResult := mkSR {
  sr_title : string; sr_url : string; sr_description : string;
  sr_source : string; sr_is_fallback : option bool; sr_is_ai_summary : option bool }.

(** The dictionary returned by [smart_search], [search_news] and
    [groq_knowledge_fallback]; absent keys are [None]. *)
Record SearchResponse := mkResp {
  results : list SearchResult; source : option string; count : Z;
  query : option string; success : bool; is_fallback : option bool;
  fallback_reason : option string; error : option string }.

(** A raw API item: title, url and description (after [.get(_, "")]). *)
Definition RawItem := (string * string * string)%type.

(** What the Brave endpoint does for one request. *)
Inductive BraveReply :=
| BraveOk (items : list RawItem)          (* status 200 *)
| BraveStatus (code : Z)                  (* any other status *)
| BraveTimeout
| BraveError (msg : string).

(** What the Tavily endpoint does for one request. *)
Inductive TavilyReply :=
| TavilyOk (answer : option string) (items : list RawItem)
| TavilyStatus (code : Z)
| TavilyTimeout
| TavilyError (msg : string).

(** What [groq_service.generate_response] does: a reply or an exception. *)
Inductive GroqReply := GroqText (s : string) | GroqRaises (msg : string).

(** The configuration and the external services seen by the gateway. *)
Record SearchEnv := mkEnv {
  brave_key : bool; tavily_key : bool;
  brave_reply : BraveReply; tavily_reply : TavilyReply; groq_reply : GroqReply }.

(** The service object: its [QuotaManager], [_session_count], and a log
    of the tiers [smart_search] invoked (instrumentation only). *)
Record SearchState := mkSS {
  quota : QuotaManager; session_count : gmap string Z; calls : list string }.

Definition bump_session (k : string) (st : SearchState) : SearchState :=
  mkSS (quota st) (<[k := (default 0%Z (session_count st !! k) + 1)%Z]> (session_count st)) (calls st).

Definition record (service : string) (st : SearchState) : SearchState :=
  mkSS (record_usage (quota st) service) (session_count st) (calls st).

Definition log_call (tier : string) (st : SearchState) : SearchState :=
  mkSS (quota st) (session_count st) (app (calls st) [tier]).

(** [search_brave(query, count)] *)
Definition search_brave (env : SearchEnv) (q : string) (cnt : nat) (st : SearchState)
  : list SearchResult * SearchState :=
  if negb (brave_key env) then ([], st)
  else if negb (can_use (quota st) "brave") then ([], st)
  else match brave_reply env with
       | BraveOk items =>
           let st' := bump_session "brave" (record "brave" st) in
           (map (fun '(t, u, d) => mkSR t u d "brave" None None) (firstn cnt items), st')
       | BraveStatus _ => ([], st)
       | BraveTimeout => ([], st)
       | BraveError _ => ([], st)
       end.

(** [search_tavily(query, count)] *)
Definition search_tavily (env : SearchEnv) (q : string) (cnt : nat) (st : SearchState)
  : list SearchResult * SearchState :=
  if negb (tavily_key env) then ([], st)
  else if negb (can_use (quota st) "tavily") then ([], st)
  else match tavily_reply env with
       | TavilyOk answer items =>
           let st' := bump_session "tavily" (record "tavily" st) in
           let summary :=
             match answer with
             | Some a => if String.eqb a "" then []
                         else [mkSR "AI Summary" "" a "tavily_answer" None (Some true)]
             | None => []
             end in
           (firstn cnt (summary ++ map (fun '(t, u, d) => mkSR t u d "tavily" None None) items), st')
       | TavilyStatus _ => ([], st)
       | TavilyTimeout => ([], st)
       | TavilyError _ => ([], st)
       end.

(** [groq_knowledge_fallback(query)] *)
Definition groq_knowledge_fallback (env : SearchEnv) (q : string) (st : SearchState)
  : SearchResponse * SearchState :=
  let st' := bump_session "groq" (record "groq_fallback" st) in
  match groq_reply env with
  | GroqText response =>
      (mkResp [mkSR "AI Knowledge Response" "" response "groq_knowledge" (Some true) None]
              (Some "groq_knowledge") 1 None true (Some true) (Some "search_quota_exceeded") None,
       st')
  | GroqRaises e =>
      (mkResp [] None 0 None false None None (Some e), st')
  end.

(** Tier 1 of [smart_search]: Brave when configured and within quota. *)
Definition tier1 (env : SearchEnv) (q : string) (cnt : nat) (st : SearchState)
  : list SearchResult * SearchState :=
  if brave_key env && can_use (quota st) "brave"
  then search_brave env q cnt (log_call "brave" st)
  else ([], st).

(** [smart_search(query, count)] *)
Definition smart_search (env : SearchEnv) (q : string) (cnt : nat) (st : SearchState)
  : SearchResponse * SearchState :=
  let '(r1, st1) := tier1 env q cnt st in
  let source1 := match r1 with [] => None | _ => Some "brave" end in
  let '(r2, source2, st2) :=
    match r1 with
    | [] =>
        if tavily_key env && can_use (quota st1) "tavily" then
          let '(r, s) := search_tavily env q cnt (log_call "tavily" st1) in
          (r, match r with [] => source1 | _ => Some "tavily" end, s)
        else (r1, source1, st1)
    | _ => (r1, source1, st1)
    end in
  match r2 with
  | [] => groq_knowledge_fallback env q (log_call "groq_knowledge" st2)
  | _ => (mkResp r2 source2 (Z.of_nat (length r2)) (Some q) (0 <? length r2)%nat (Some false)
                 None None, st2)
  end.

(** What the Brave news endpoint does for one request: on status 200 each
    item carries title, url, description, and its [age] and
    [meta_url.hostname] (after [.get(_, "")]). *)
Inductive NewsReply :=
| NewsItems (items : list (RawItem * string * string))
| NewsStatus (code : Z)
| NewsError (msg : string).

(** What [search_news] returns: the knowledge-fallback dictionary, or the
    Brave news dictionary ([source = "brave_news"], [success = True]) with
    its results (each with [published] and [publisher]) and its [count]. *)
Inductive NewsOutcome :=
| NewsFallback (r : SearchResponse)
| NewsResults (results : list (SearchResult * string * string)) (count : Z).

(** [search_news(query, count)] *)
Definition search_news (env : SearchEnv) (reply : NewsReply) (q : string) (cnt : nat)
    (st : SearchState) : NewsOutcome * SearchState :=
  let fallback st :=
    let '(r, st') := groq_knowledge_fallback env ("latest news about " ++ q) st in
    (NewsFallback r, st') in
  if negb (brave_key env) || negb (can_use (quota st) "brave") then fallback st
  else match reply with
       | NewsItems items =>
           (NewsResults (map (fun '(t, u, d, age, host) =>
                                (mkSR t u d "brave_news" None None, age, host))
                             (firstn cnt items))
                        (Z.of_nat (length items)),
            record "brave" st)
       | NewsStatus _ => fallback st
       | NewsError _ => fallback st
       end.

End Search.

(* ================================================================= *)
(** ** Model router: [ModelRouter.generate] (model_router.py) *)
(* ================================================================= *)

Module Router.

(** Python exceptions raised inside [generate]. [NameError] covers
    [UnboundLocalError], raised when a local is read before assignment. *)
Inductive exn :=
| NameError (name : string)
| AttributeError (type_name : string)
| IndexError
| ProviderError (msg : string).

(** [str(e)] *)
Definition str_exn (e : exn) : string :=
  match e with
  | NameError x => "cannot access local variable '" ++ x ++ "' where it is not associated with a value"
  | AttributeError ty => "'" ++ ty ++ "' object has no attribute 'get'"
  | IndexError => "list index out of range"
  | ProviderError m => m
  end.

(** The effect of one call: exceptions, and the list of provider adapters
    invoked so far (which providers a call reached). *)
Definition M (A : Type) : Type := list string -> list string * (exn + A).

Definition mret {A} (a : A) : M A := fun t => (t, inr a).

Definition mbind {A B} (m : M A) (k : A -> M B) : M B :=
  fun t => match m t with
           | (t', inl e) => (t', inl e)
           | (t', inr a) => k a t'
           end.

Notation "x <-- m ;; k" := (mbind m (fun x => k))
  (at level 100, m at next level, right associativity).

Definition raise {A} (e : exn) : M A := fun t => (t, inl e).

(** [try: m except Exception as e: h(e)] *)
Definition try_except {A} (m : M A) (h : exn -> M A) : M A :=
  fun t => match m t with
           | (t', inl e) => h e t'
           | r => r
           end.

(** An adapter of provider [p] is entered. *)
Definition invoke (p : string) : M unit := fun t => (app t [p], inr tt).

(** Reading a local variable: unbound locals raise [UnboundLocalError]. *)
Definition read_local {A} (x : string) (v : option A) : M A :=
  match v with Some a => mret a | None => raise (NameError x) end.

(** Configuration read by the router: [groq_service.available],
    [openrouter_service.available], [xai_service.available],
    [openai_service.api_key], [ollama_service.is_available],
    [settings.GEMINI_API_KEY] (also [gemini_service.api_key]) and
    [jira_service.available]. *)
Record Config := mkCfg {
  groq_available : bool; openrouter_available : bool; xai_available : bool;
  openai_api_key : bool; ollama_is_available : bool; gemini_api_key : bool;
  jira_available : bool }.

(** An element of [history]: a dict with role and content, or a value
    of another Python type, named by [type_name] (on which [msg.get]
    raises [AttributeError]). *)
Inductive HistItem := HMsg (role content : string) | HNotDict (type_name : string).

Definition hist_bad (h : HistItem) : bool :=
  match h with HMsg _ _ => false | HNotDict _ => true end.

(** The type of the first entry the adapter's [for msg in ...] loop fails
    on. *)
Fixpoint first_bad_type (history : list HistItem) : string :=
  match history with
  | [] => ""
  | HMsg _ _ :: rest => first_bad_type rest
  | HNotDict ty :: _ => ty
  end.

(** [xs[-n:]] *)
Definition last_n {A} (n : nat) (xs : list A) : list A := skipn (length xs - n) xs.

(** Outcome of an OpenRouter or xAI chat request. *)
Inductive ChatHttp :=
| ChatOk (text : string) | ChatStatus (code : string) | ChatNoChoices | ChatError (msg : string).

(** Outcome of a Gemini REST request. *)
Inductive GeminiHttp :=
| GeminiOk (text : string) | GeminiStatus (code body : string) | GeminiNoCandidates
| GeminiError (msg : string).

(** Outcome of [ollama.Client.chat]. *)
Inductive OllamaReply := OllamaText (s : string) | OllamaRaises (msg : string).

(** The external world of one [generate] call. *)
Record World := mkWorld {
  w_smart_search : Search.SearchResponse;   (* web_search.smart_search(message) *)
  w_news_search : Search.SearchResponse;    (* web_search.search_news(message) *)
  w_jira_context : string;                  (* jira_service.get_project_context() *)
  w_jira_create : string;                   (* jira_service.create_issue(...) *)
  w_groq : Search.GroqReply;
  w_openrouter : ChatHttp;
  w_xai : ChatHttp;
  w_ollama : OllamaReply;
  w_gemini : GeminiHttp }.

Definition groq_reasoning_model := "llama-3.3-70b-versatile".
Definition groq_default_model := "llama-3.3-70b-versatile".
Definition groq_fast_model := "llama-3.1-8b-instant".
Definition openrouter_reasoning_model := "deepseek/deepseek-r1".
Definition openrouter_default_model := "google/gemini-2.0-flash-001".
Definition openrouter_fast_model := "meta-llama/llama-3.3-70b-instruct".
Definition xai_default_model := "grok-2-1212".
Definition xai_fast_model := "grok-beta".
Definition xai_reasoning_model := "grok-2-1212".

(** [ollama_service.models.get(model_type, self.models["reasoning"])] *)
Definition ollama_model (model_type : string) : string :=
  if String.eqb model_type "vision" then "gemini-3-flash-preview"
  else if String.eqb model_type "fast" then "gpt-oss:20b"
  else if String.eqb model_type "coding" then "qwen3-coder:480b"
  else if String.eqb model_type "general" then "gpt-oss:120b"
  else "deepseek-v3.1:671b".

(** [groq_service.generate_response] *)
Definition groq_generate (cfg : Config) (w : World) (message system_prompt : string)
    (history : list HistItem) : M string :=
  _ <-- invoke "groq" ;;
  if negb (groq_available cfg) then raise (ProviderError "Groq API key not configured")
  else if existsb hist_bad history then raise (AttributeError (first_bad_type history))
  else match w_groq w with
       | Search.GroqText s => mret s
       | Search.GroqRaises m => raise (ProviderError m)
       end.

(** [openrouter_service.generate_response] and [xai_service.generate_response]
    share their shape; [name] is the provider's display name. *)
Definition chat_generate (p name : string) (available : bool) (reply : ChatHttp)
    (message system_prompt : string) (history : list HistItem) : M string :=
  _ <-- invoke p ;;
  if negb available then mret ("Error: " ++ name ++ " API key not configured.")
  else if existsb hist_bad (last_n 5 history)
  then raise (AttributeError (first_bad_type (last_n 5 history)))
  else match reply with
       | ChatOk s => mret s
       | ChatStatus code => mret ("Error: " ++ name ++ " API returned " ++ code)
       | ChatNoChoices => mret ("Error: No response from " ++ name)
       | ChatError m => mret ("Error calling " ++ name ++ ": " ++ m)
       end.

(** [gemini_service.generate_response] *)
Definition gemini_generate (cfg : Config) (w : World) (prompt : string) (history : list HistItem)
  : M string :=
  _ <-- invoke "gemini" ;;
  if negb (gemini_api_key cfg) then mret "Error: Gemini API Key not configured"
  else if existsb hist_bad (last_n 5 history)
  then raise (AttributeError (first_bad_type (last_n 5 history)))
  else match w_gemini w with
       | GeminiOk s => mret s
       | GeminiStatus code body => mret ("Error: Gemini API " ++ code ++ " - " ++ body)
       | GeminiNoCandidates => mret "Error: No response from Gemini"
       | GeminiError m => mret ("Error calling Gemini: " ++ m)
       end.

(** [ollama_service.invoke]: the [response] and [model_used] keys of its
    dictionary. *)
Definition ollama_invoke (cfg : Config) (w : World) (model_type : string)
  : M (option string * option string) :=
  _ <-- invoke "ollama" ;;
  if negb (ollama_is_available cfg) then mret (None, None)
  else match w_ollama w with
       | OllamaText s => mret (Some s, Some (ollama_model model_type))
       | OllamaRaises m => raise (ProviderError m)
       end.

(** The dictionary returned by [generate]; absent keys are [None]. *)
Record Result := mkRes {
  response : string; provider : option string; model : option string;
  fallback : bool; error : option string }.

Definition apology : string :=
  "I apologize, but I am currently experiencing high traffic. Please try again in a moment.".

Fixpoint join (sep : string) (xs : list string) : string :=
  match xs with
  | [] => ""
  | [x] => x
  | x :: rest => x ++ sep ++ join sep rest
  end.

Definition complex_keywords :=
  ["diet"; "plan"; "chart"; "report"; "analyze"; "medical"; "symptom"; "reason"; "logic"; "math"].
Definition vision_keywords := ["image"; "photo"; "scan"; "look"; "see"].
Definition search_keywords :=
  ["search"; "find"; "look up"; "google"; "brave"; "online"; "internet"; "price"; "latest";
   "news"; "current"; "today"; "weather"].
Definition pm_keywords := ["sprint"; "task"; "jira"; "bug"; "issue"; "project"; "status"; "todo"].

(** The search-context block spliced into the system prompt. *)
Definition search_context (sp : string) (sd : Search.SearchResponse) : string :=
  let ctx := join nl (map (fun r => "- " ++ Search.sr_title r ++ ": " ++ Search.sr_description r
                                     ++ " (" ++ Search.sr_url r ++ ")") (Search.results sd)) in
  sp ++ nl ++ nl ++ "[REAL-TIME SEARCH RESULTS]" ++ nl ++ ctx ++ nl ++ nl ++ "[INSTRUCTION]" ++ nl
     ++ "Use the above search results to answer the user's question. Citations are encouraged.".

(** The Jira-context block spliced into the system prompt. *)
Definition jira_context_prompt (w : World) (check_msg sp : string) : string :=
  let sp1 := sp ++ nl ++ nl ++ "[REAL-TIME JIRA DATA]" ++ nl ++ w_jira_context w in
  let sp2 := if contains "create" check_msg || contains "new" check_msg || contains "add" check_msg
             then sp1 ++ nl ++ "[ACTION AVAILABLE]" ++ nl
                  ++ "If the user wants to create a task/bug, output ONLY this format: ACTION: CREATE_TASK | <summary> | <description (optional)>"
             else sp1 in
  sp2 ++ nl ++ "[INSTRUCTION]" ++ nl
      ++ "Use the above data to answer the user's question about the project status.".

(** The [if provider == "auto":] block: the chosen provider, the system
    prompt, and the values of [is_complex] and [is_vision]. *)
Definition auto_route (cfg : Config) (w : World) (message sp : string) (fast : bool)
  : string * string * bool * bool :=
  let check_msg := lower message in
  let is_complex := any_in complex_keywords check_msg in
  let is_vision := any_in vision_keywords check_msg in
  let is_search := any_in search_keywords check_msg in
  let is_news := contains "news" check_msg || contains "latest" check_msg in
  (* web_search.is_available is always True *)
  let '(sp1, c1) :=
    if is_search then
      let sd := if is_news then w_news_search w else w_smart_search w in
      if Search.success sd then (search_context sp sd, true) else (sp, is_complex)
    else (sp, is_complex) in
  let is_pm := any_in pm_keywords check_msg in
  let '(sp2, c2) :=
    if is_pm && jira_available cfg then (jira_context_prompt w check_msg sp1, true)
    else (sp1, c1) in
  let provider :=
    if is_vision then
      if gemini_api_key cfg then "gemini"
      else if ollama_is_available cfg then "ollama" else "gemini"
    else if c2 then
      if openrouter_available cfg then "openrouter"
      else if xai_available cfg then "xai"
      else if groq_available cfg then "groq"
      else if ollama_is_available cfg then "ollama"
      else if openai_api_key cfg then "openai"
      else "gemini"
    else if fast then
      if groq_available cfg then "groq" else if xai_available cfg then "xai" else "gemini"
    else
      if groq_available cfg then "groq" else if xai_available cfg then "xai" else "gemini" in
  (provider, sp2, c2, is_vision).

(** Action parsing after a Groq reply ([ACTION: CREATE_TASK | s | d]). *)
Definition parse_action (w : World) (response : string) : M string :=
  if contains "ACTION: CREATE_TASK" response then
    try_except
      (let parts := split "|" response in
       summary <-- (match nth_error parts 1 with Some x => mret (strip x) | None => raise IndexError end) ;;
       let description := if (2 <? length parts)%nat then strip (nth 2 parts "") else "" in
       let action_result := w_jira_create w in
       mret (response ++ nl ++ nl ++ "[SYSTEM] " ++ action_result))
      (fun e => mret (response ++ nl ++ nl ++ "[SYSTEM] Failed to execute action: " ++ str_exn e))
  else mret response.

(** [f"{system_prompt}\n\n{message}" if system_prompt else message] *)
Definition full_prompt (sp message : string) : string :=
  if String.eqb sp "" then message else sp ++ nl ++ nl ++ message.

(** Step 1: the primary provider ([None]: no branch returned). *)
Definition primary (cfg : Config) (w : World) (message sp : string) (history : list HistItem)
    (provider : string) (fast : bool) (is_complex is_vision : option bool) : M (option Result) :=
  if String.eqb provider "groq" && groq_available cfg then
    let target0 := if fast then groq_fast_model else groq_default_model in
    ic <-- read_local "is_complex" is_complex ;;
    (* hasattr(groq_service, 'reasoning_model') holds *)
    let target := if ic then groq_reasoning_model else target0 in
    response <-- groq_generate cfg w message sp history ;;
    response' <-- parse_action w response ;;
    mret (Some (mkRes response' (Some "groq") (Some target) false None))
  else if String.eqb provider "openrouter" && openrouter_available cfg then
    let target0 := if fast then openrouter_fast_model else openrouter_default_model in
    ic <-- read_local "is_complex" is_complex ;;
    let target := if ic then openrouter_reasoning_model else target0 in
    response <-- chat_generate "openrouter" "OpenRouter" (openrouter_available cfg)
                   (w_openrouter w) message sp history ;;
    mret (Some (mkRes response (Some "openrouter") (Some target) false None))
  else if String.eqb provider "xai" && xai_available cfg then
    let target0 := if fast then xai_fast_model else xai_default_model in
    ic <-- read_local "is_complex" is_complex ;;
    let target := if ic then xai_reasoning_model else target0 in
    response <-- chat_generate "xai" "xAI" (xai_available cfg) (w_xai w) message sp history ;;
    mret (Some (mkRes response (Some "xai") (Some target) false None))
  else if String.eqb provider "gemini" then
    response <-- gemini_generate cfg w (full_prompt sp message) history ;;
    mret (Some (mkRes response (Some "gemini") (Some "gemini-1.5-flash") false None))
  else if String.eqb provider "ollama" && ollama_is_available cfg then
    ic <-- read_local "is_complex" is_complex ;;
    let model_type := if ic then "reasoning" else if fast then "fast" else "general" in
    iv <-- read_local "is_vision" is_vision ;;
    let model_type := if iv then "vision" else model_type in
    result <-- ollama_invoke cfg w model_type ;;
    mret (Some (mkRes (default "" (fst result)) (Some "ollama")
                      (Some (default "ollama-cloud" (snd result))) false None))
  else mret None.

(** Step 2: the Ollama backup (called when Ollama is available). *)
Definition backup (cfg : Config) (w : World) (fast : bool) (is_complex is_vision : option bool)
  : M Result :=
  ic <-- read_local "is_complex" is_complex ;;
  let model_type := if ic then "reasoning" else if fast then "fast" else "general" in
  iv <-- read_local "is_vision" is_vision ;;
  let model_type := if iv then "vision" else model_type in
  result <-- ollama_invoke cfg w model_type ;;
  mret (mkRes (default "" (fst result)) (Some "ollama")
              (Some (default "ollama-cloud-backup" (snd result))) true None).

(** Step 3: the Gemini safety net and the apology result. *)
Definition safety_net (cfg : Config) (w : World) (message sp : string) (history : list HistItem)
  : M Result :=
  try_except
    (response <-- gemini_generate cfg w (full_prompt sp message) history ;;
     mret (mkRes response (Some "gemini") (Some "gemini-1.5-flash-cleanup") true None))
    (fun e => mret (mkRes apology None None true (Some (str_exn e)))).

(** [ModelRouter.generate(message, system_prompt, history, provider, fast)] *)
Definition generate (cfg : Config) (w : World) (message system_prompt : string)
    (history : list HistItem) (provider : string) (fast : bool) : M Result :=
  let '(provider, sp, is_complex, is_vision) :=
    if String.eqb provider "auto" then
      let '(p, sp', c, v) := auto_route cfg w message system_prompt fast in
      (p, sp', Some c, Some v)
    else (provider, system_prompt, None, None) in
  r <-- try_except (primary cfg w message sp history provider fast is_complex is_vision)
                   (fun _ => mret None) ;;
  match r with
  | Some res => mret res
  | None =>
      r2 <-- (if ollama_is_available cfg then
                try_except (res <-- backup cfg w fast is_complex is_vision ;; mret (Some res))
                           (fun _ => mret None)
              else mret None) ;;
      match r2 with
      | Some res => mret res
      | None => safety_net cfg w message sp history
      end
  end.

(** Running a call from an empty log: the adapters reached and the outcome. *)
Definition run_generate cfg w message sp history provider fast : list string * (exn + Result) :=
  generate cfg w message sp history provider fast [].

(** The first statement of [generate]: the provider, the system prompt,
    and the locals [is_complex] and [is_vision] ([None]: never assigned,
    when [provider] is not ["auto"]). *)
Definition generate_inputs (cfg : Config) (w : World) (message system_prompt : string)
    (provider : string) (fast : bool) : string * string * option bool * option bool :=
  if String.eqb provider "auto" then
    let '(p, sp', c, v) := auto_route cfg w message system_prompt fast in
    (p, sp', Some c, Some v)
  else (provider, system_prompt, None, None).

End Router.

(* ================================================================= *)
(** ** Critic: [CriticAgent.process] (critic.py) *)
(* ================================================================= *)

Module Critic.

(** The [context] dictionary; [None] marks an absent key, and the intent
    itself may be Python [None]. *)
Record CriticContext := mkCC {
  cc_draft_response : option string;
  cc_intent : option (option string);
  cc_tool_success : option bool }.

Record CriticResult := mkCR {
  cr_agent : string; cr_approved : bool; cr_final_response : string; cr_review_notes : string }.

Definition name := "Quality Reviewer".

Definition disclaimer : string :=
  nl ++ nl ++ "_Disclaimer: This is general guidance. Please consult a qualified professional for personalized advice._".

(** [approved = "APPROVED: yes" in r.lower() or "approved: yes" in r.lower()] *)
Definition is_approved (review_result : string) : bool :=
  contains "APPROVED: yes" (lower review_result) || contains "approved: yes" (lower review_result).

(** [CriticAgent.process(user_message, context)]; [review_result] is what
    [self.generate(review_prompt)] returns. *)
Definition process (user_message : string) (ctx : CriticContext) (review_result : string)
  : CriticResult :=
  let draft_response := default "" (cc_draft_response ctx) in
  let intent := default (Some "general") (cc_intent ctx) in
  if option_eq_bool intent "general" then
    mkCR name true draft_response "General query - auto-approved"
  else if option_eq_bool intent "tool" && default false (cc_tool_success ctx) then
    mkCR name true draft_response "Tool calculation - auto-approved"
  else if is_approved review_result then
    mkCR name true draft_response "Passed quality review"
  else if contains "IMPROVED:" review_result then
    let improved := strip (last_of (split "IMPROVED:" review_result)) in
    mkCR name true improved "Improved by reviewer"
  else
    mkCR name true (draft_response ++ disclaimer) "Added disclaimer".

End Critic.

(* ================================================================= *)
(** ** Cross-verifier: [CrossVerifierAgent.process] (cross_verifier.py) *)
(* ================================================================= *)

Module CrossVerifier.

Import Router.

Definition dq := chr 34.

Definition system_prompt : string :=
  join nl ["You are a Medical Safety Board.";
           "Your job is to review AI responses for:";
           "1. Medical inaccuracies";
           "2. Dangerous advice";
           "3. Lack of disclaimers";
           "";
           "If the response is SAFE and ACCURATE, return " ++ dq ++ "SAFE" ++ dq ++ ".";
           "If not, return a corrected version with explanations."].

Definition verification_prompt (original_query response : string) : string :=
  let ind := "        " in
  join nl ["Review this interaction for medical safety.";
           ind;
           ind ++ "User Query: " ++ original_query;
           ind ++ "AI Response: " ++ response;
           ind;
           ind ++ "Task:";
           ind ++ "1. Check for medical errors or dangerous advice.";
           ind ++ "2. Ensure disclaimers are present.";
           ind ++ "3. If safe, reply exactly " ++ dq ++ "SAFE" ++ dq ++ ".";
           ind ++ "4. If unsafe/inaccurate, provide ONLY the CORRECTED version.";
           ind ++ "   - Do NOT say " ++ dq ++ "The provided response..." ++ dq;
           ind ++ "   - Do NOT explain what you changed.";
           ind ++ "   - Just output the final, safe response text.";
           ind].

(** The [context] keys [original_query] and [provider_used]. *)
Record CVContext := mkCVC { cv_original_query : option string; cv_provider_used : option string }.

(** The returned dictionary ([corrections] absent on the fail-open path). *)
Record CVResult := mkCVR { cv_verified : bool; cv_response : string; cv_corrections : option (option string) }.

(** [verifier_provider = "gemini" if provider_used == "groq" else "groq"] *)
Definition verifier_provider (provider_used : string) : string :=
  if String.eqb provider_used "groq" then "gemini" else "groq".

(** The verifier's call to [model_router.generate]: the adapters it
    reached and its outcome. *)
Definition verification_call (cfg : Config) (w : World) (response : string) (ctx : CVContext)
  : list string * (exn + Result) :=
  let original_query := default "" (cv_original_query ctx) in
  let provider_used := default "unknown" (cv_provider_used ctx) in
  run_generate cfg w (verification_prompt original_query response) system_prompt []
               (verifier_provider provider_used) false.

(** [CrossVerifierAgent.process(response, context)] *)
Definition process (cfg : Config) (w : World) (response : string) (ctx : CVContext) : CVResult :=
  match snd (verification_call cfg w response ctx) with
  | inl _ => mkCVR true response None
  | inr verification =>
      let result_text := Router.response verification in
      if contains "SAFE" (upper (take 10 result_text)) then
        mkCVR true response (Some None)
      else
        mkCVR false result_text (Some (Some "Safety concerns addressed by Cross-Verifier."))
  end.

(** The provider whose reply the verifier received ([provider] key). *)
Definition served_by (cfg : Config) (w : World) (response : string) (ctx : CVContext)
  : option string :=
  match snd (verification_call cfg w response ctx) with
  | inl _ => None
  | inr r => Router.provider r
  end.

End CrossVerifier.

(* ================================================================= *)
(** ** Fact-checker: [FactCheckerAgent] (fact_checker.py) *)
(* ================================================================= *)

Module FactChecker.

Import Search.
Local Open Scope Q_scope.

(** The services the agent calls: the claim-extraction reply of Groq, the
    [web_search.smart_search] response for a query, the Groq verdict for
    a claim, and the Groq rewrite. *)
Record FactWorld := mkFW {
  fw_extract : GroqReply;
  fw_search : string -> SearchResponse;
  fw_verify : string -> GroqReply;
  fw_rewrite : GroqReply }.

(** One entry of [verification_results] ([sources] absent on failures). *)
Record VerifyResult := mkVR {
  vr_claim : string; vr_verified : bool; vr_confidence : Q; vr_evidence : string;
  vr_sources : option (list SearchResult) }.

(** The dictionary returned by [process]. *)
Record FCResult := mkFC {
  fc_verified_response : string; fc_confidence : Q; fc_verified : bool;
  fc_claims_checked : nat; fc_verification_details : option (list VerifyResult);
  fc_sources : list SearchResult }.

(** [_extract_claims(response)] *)
Definition extract_claims (fw : FactWorld) (response : string) : list string :=
  match fw_extract fw with
  | GroqRaises _ => []
  | GroqText result =>
      firstn 5 (map strip (filter (fun c => negb (String.eqb (strip c) "")
                                            && negb (String.prefix "#" (strip c)))
                                  (split nl result)))
  end.

(** The per-claim confidence read from the model's verdict. *)
Definition verdict (verification : string) : Q * bool :=
  let verification_lower := lower verification in
  if contains "supported" verification_lower then (9 # 10, true)
  else if contains "contradicted" verification_lower then (1 # 10, false)
  else (1 # 2, false).

(** [_verify_claim(claim, context)] *)
Definition verify_claim (fw : FactWorld) (claim context : string) : VerifyResult :=
  let search_query := take 100 (claim ++ " " ++ context) in
  let search_result := fw_search fw search_query in
  if negb (success search_result) then
    mkVR claim false (3 # 10) "No search results found" None
  else
    let sources := results search_result in
    let evidence_text :=
      Router.join nl (map (fun s => "- " ++ sr_title s ++ ": " ++ take 200 (sr_description s))
                          (firstn 3 sources)) in
    match fw_verify fw claim with
    | GroqRaises e => mkVR claim false (3 # 10) ("Error: " ++ e) None
    | GroqText verification =>
        let '(confidence, verified) := verdict verification in
        mkVR claim verified confidence (take 300 evidence_text) (Some sources)
    end.

Definition sumQ (xs : list Q) : Q := fold_right Qplus 0 xs.

(** [_calculate_confidence(verification_results)] *)
Definition calculate_confidence (verification_results : list VerifyResult) : Q :=
  match verification_results with
  | [] => 4 # 5
  | _ =>
      let confidences := map vr_confidence verification_results in
      sumQ confidences / inject_Z (Z.of_nat (length confidences))
  end.

Definition rewrite_note : string :=
  nl ++ nl ++ "⚠️ Note: Some claims in this response could not be verified.".

(** [_rewrite_with_corrections(original, query, verifications)] *)
Definition rewrite_with_corrections (fw : FactWorld) (original : string) : string :=
  match fw_rewrite fw with
  | GroqText revised => revised
  | GroqRaises _ => original ++ rewrite_note
  end.

(** [process(message, context)] with [context] giving [original_query]
    and [sources]. *)
Definition process (fw : FactWorld) (message original_query : string)
    (existing_sources : list SearchResult) : FCResult :=
  let claims := extract_claims fw message in
  match claims with
  | [] => mkFC message (19 # 20) true 0 None existing_sources
  | _ =>
      let verification_results := map (fun c => verify_claim fw c original_query) (firstn 3 claims) in
      let all_sources :=
        app existing_sources (concat (map (fun r => default [] (vr_sources r)) verification_results)) in
      let confidence := calculate_confidence verification_results in
      let verified_response :=
        if Qle_bool (3 # 5) confidence then message else rewrite_with_corrections fw message in
      mkFC verified_response confidence (Qle_bool (3 # 5) confidence) (length claims)
           (Some verification_results) all_sources
  end.

End FactChecker.

(* ================================================================= *)
(** ** Orchestrator: [Orchestrator.process_message] (orchestrator.py) *)
(* ================================================================= *)

Module Orchestrator.

Local Open Scope Q_scope.

(** The keys of [self.agents]. *)
Definition agent_names : list string :=
  ["WellnessAgent"; "ProtectionAgent"; "GeneralAgent"; "ToolAgent"; "SearchAgent";
   "DeepResearchAgent"; "DataAnalystAgent"; "StudyAgent"].

Definition greetings : list string :=
  ["hi"; "hello"; "hey"; "namaste"; "pranam"; "greetings"; "good morning"; "good evening"].

Definition tool_keywords : list string :=
  ["calculate"; "bmi"; "premium"; "cost"; "price"; "sum"; "multiply"].

Definition search_keywords : list string :=
  ["latest"; "news"; "current"; "today"; "weather"; "who is"; "what is"; "price of"; "cost of";
   "vs"; "versus"].

(** What a specialist's [process] returns: the keys [response], [success],
    [provider] and [sources] ([None]: absent). *)
Record AgentResult := mkAR {
  ar_response : option string; ar_success : option bool; ar_provider : option string;
  ar_sources : list Search.SearchResult }.

(** The collaborators of one request: memory size, the LLM router agent's
    decision ([intent], [route_to]), each specialist's result, the
    Critic's reviewer reply, and the worlds of the verifier and of the
    fact-checker. *)
Record OrchWorld := mkOW {
  ow_memory_len : nat;
  ow_routing : string * string;
  ow_agent : string -> AgentResult;
  ow_review : string;
  ow_cfg : Router.Config;
  ow_verifier_world : Router.World;
  ow_fact : FactChecker.FactWorld }.

(** The returned dictionary. *)
Record OrchResult := mkOR {
  o_response : string; o_intent : option string; o_agent_used : string; o_reviewed : bool;
  o_context_used : bool; o_sources : list Search.SearchResult; o_verified : bool;
  o_confidence : Q }.

(** Fast-path classification: [(intent, agent_name)]; an intent of [None]
    sends the message to the LLM router. *)
Definition fast_path (user_message : string) : option string * option string :=
  let msg_lower := lower (strip user_message) in
  if mem msg_lower greetings then (Some "general", Some "GeneralAgent")
  else if any_in tool_keywords msg_lower then
    if contains "bmi" msg_lower || contains "calculate" msg_lower
    then (Some "tool", Some "ToolAgent") else (None, None)
  else if any_in search_keywords msg_lower then
    if negb (contains "your" msg_lower) && negb (contains "you" msg_lower)
    then (Some "search", Some "SearchAgent") else (None, None)
  else (None, None).

(** Step 3: the routing decision and whether the LLM router ran. *)
Definition route (ow : OrchWorld) (user_message : string) (force_agent : option string)
  : option string * string * bool :=
  let classified :=
    match fast_path user_message with
    | (Some i, Some a) => (Some i, a, false)
    | _ => (Some (fst (ow_routing ow)), snd (ow_routing ow), true)   (* router_agent.process *)
    end in
  match force_agent with
  | Some f =>
      if mem f agent_names then
        (Some (if String.eqb f "DeepResearchAgent" then "research" else "analysis"), f, false)
      else classified
  | None => classified
  end.

Definition in_intents (intent : option string) (xs : list string) : bool :=
  match intent with Some i => mem i xs | None => false end.

(** [process_message(user_message, user_id, chat_id, verify_facts, force_agent)]:
    the stages that ran (["router"], ["critic"], ["cross_verifier"],
    ["fact_checker"]) and the returned dictionary. *)
Definition process_message (ow : OrchWorld) (user_message : string) (verify_facts : bool)
    (force_agent : option string) : list string * OrchResult :=
  let '(intent, agent_name, routed) := route ow user_message force_agent in
  let stages0 := if routed then ["router"] else [] in
  let agent := if mem agent_name agent_names then agent_name else "GeneralAgent" in
  let agent_result := ow_agent ow agent in
  let draft_response := default "I'm not sure how to help with that." (ar_response agent_result) in
  let critic_context := Critic.mkCC (Some draft_response) (Some intent)
                                    (Some (default true (ar_success agent_result))) in
  let review :=
    if negb (in_intents intent ["general"; "tool"])
    then Some (Critic.process user_message critic_context (ow_review ow)) else None in
  let stages1 := app stages0 (match review with Some _ => ["critic"] | None => [] end) in
  let final_response := match review with
                        | Some r => Critic.cr_final_response r
                        | None => draft_response end in
  let cross := in_intents intent ["wellness"; "protection"; "research"] in
  let final_response :=
    if cross then
      let cc := CrossVerifier.process (ow_cfg ow) (ow_verifier_world ow) final_response
                  (CrossVerifier.mkCVC (Some user_message)
                     (Some (default "unknown" (ar_provider agent_result)))) in
      if negb (CrossVerifier.cv_verified cc) then CrossVerifier.cv_response cc else final_response
    else final_response in
  let stages2 := app stages1 (if cross then ["cross_verifier"] else []) in
  let check := verify_facts && in_intents intent ["search"; "wellness"] in
  let verification_result :=
    if check then Some (FactChecker.process (ow_fact ow) final_response user_message
                                            (ar_sources agent_result))
    else None in
  let stages3 := app stages2 (if check then ["fact_checker"] else []) in
  let final_response :=
    match verification_result with
    | Some v => if FactChecker.fc_verified v then FactChecker.fc_verified_response v else final_response
    | None => final_response
    end in
  (stages3,
   mkOR final_response intent agent_name
        (match review with Some r => Critic.cr_approved r | None => true end)
        (0 <? ow_memory_len ow)%nat
        (ar_sources agent_result)
        (match verification_result with Some v => FactChecker.fc_verified v | None => false end)
        (match verification_result with Some v => FactChecker.fc_confidence v | None => 0 end)).

End Orchestrator.

(* ================================================================= *)
(** ** Intent router: [RouterAgent] (agents/router.py) *)
(* ================================================================= *)

Module RouterAgent.

Definition valid_intents : list string :=
  ["wellness"; "protection"; "tool"; "search"; "general"; "research"; "analysis"].

(** [_get_agent_for_intent(intent)] *)
Definition get_agent_for_intent (intent : string) : string :=
  if String.eqb intent "wellness" then "WellnessAgent"
  else if String.eqb intent "protection" then "ProtectionAgent"
  else if String.eqb intent "tool" then "ToolAgent"
  else if String.eqb intent "search" then "SearchAgent"
  else if String.eqb intent "research" then "DeepResearchAgent"
  else if String.eqb intent "analysis" then "DataAnalystAgent"
  else if String.eqb intent "general" then "GeneralAgent"
  else "GeneralAgent".

(** [process(user_message)]: [classification] is what [self.generate]
    returned; the result is the [intent] and [route_to] keys. *)
Definition process (classification : string) : string * string :=
  let intent := lower (strip classification) in
  let intent := if mem intent valid_intents then intent else "general" in
  (intent, get_agent_for_intent intent).

(** The orchestrator's collaborators when the LLM routing decision of
    step 3 is the one [router_agent.process] derives from the classifier's
    reply [classification]. *)
Definition with_router (ow : Orchestrator.OrchWorld) (classification : string)
  : Orchestrator.OrchWorld :=
  Orchestrator.mkOW (Orchestrator.ow_memory_len ow) (process classification)
    (Orchestrator.ow_agent ow) (Orchestrator.ow_review ow) (Orchestrator.ow_cfg ow)
    (Orchestrator.ow_verifier_world ow) (Orchestrator.ow_fact ow).

End RouterAgent.

(* ================================================================= *)
(** ** Concrete configurations and worlds used by the examples *)
(* ================================================================= *)

Module Samples.

Import Router.

Definition empty_search : Search.SearchResponse :=
  Search.mkResp [] None 0%Z None false None None None.

(** Groq, Ollama and Gemini configured; nothing else. *)
Definition cfg_groq_ollama_gemini : Config := mkCfg true false false false true true false.

(** Groq and Gemini configured, Ollama not. *)
Definition cfg_groq_gemini : Config := mkCfg true false false false false true false.

(** Every provider fails: Groq and Ollama raise, Gemini answers HTTP 503. *)
Definition world_all_fail : World :=
  mkWorld empty_search empty_search "" "" (Search.GroqRaises "Groq API Error")
          (ChatStatus "503") (ChatStatus "503") (OllamaRaises "connection refused")
          (GeminiStatus "503" "Service Unavailable").

(** Every provider answers. *)
Definition world_all_ok : World :=
  mkWorld empty_search empty_search "" "" (Search.GroqText "groq answer")
          (ChatOk "openrouter answer") (ChatOk "xai answer") (OllamaText "ollama answer")
          (GeminiOk "SAFE").

(** A usage file of September 2026 in which Brave's quota is used up. *)
Definition usage_sep_exhausted : Quota.Usage :=
  Quota.mkUsage "2026-09"
    (<["brave" := 2000%Z]> (<["tavily" := 0%Z]> (<["groq_fallback" := 0%Z]> ∅))).

(** A manager constructed in September 2026 from that file. *)
Definition qm_sep_exhausted : Quota.QuotaManager := Quota.init "2026-09" (Some usage_sep_exhausted).

(** No search key configured, and Groq has no API key. *)
Definition env_groq_unconfigured : Search.SearchEnv :=
  Search.mkEnv false false Search.BraveTimeout Search.TavilyTimeout
               (Search.GroqRaises "Groq API key not configured").

(** Only a Brave key is configured. *)
Definition env_brave_only : Search.SearchEnv :=
  Search.mkEnv true false (Search.BraveOk []) Search.TavilyTimeout
               (Search.GroqText "knowledge answer").

(** A wellness question routed by the LLM router, answered by a Groq
    draft, with the verifier's Gemini failing and no extractable claim. *)
Definition ow_wellness_gemini_down : Orchestrator.OrchWorld :=
  Orchestrator.mkOW 0 ("wellness", "WellnessAgent")
    (fun _ => Orchestrator.mkAR (Some "Drink water.") (Some true) (Some "groq") [])
    "APPROVED: yes" cfg_groq_gemini world_all_fail
    (FactChecker.mkFW (Search.GroqText "") (fun _ => empty_search)
                      (fun _ => Search.GroqText "UNCLEAR") (Search.GroqText "")).

(** Complex requests can only go to OpenAI: no OpenRouter, xAI, Groq or
    Ollama, but an OpenAI key and a Gemini key. *)
Definition cfg_openai_gemini : Config := mkCfg false false false true false true false.

(** A fresh search service in October 2026. *)
Definition search_state0 : Search.SearchState :=
  Search.mkSS (Quota.init "2026-10" None) ∅ [].



(** The extraction model returns an empty answer. *)
Definition fact_world_no_claims : FactChecker.FactWorld :=
  FactChecker.mkFW (Search.GroqText "") (fun _ => empty_search)
                   (fun _ => Search.GroqText "SUPPORTED") (Search.GroqText "").

End Samples.

(* ================================================================= *)
(** * Proofs *)
(* ================================================================= *)

Module RouterFacts.

Import Router.

(** What Gemini's adapter returns when it does not raise (no malformed
    history entry in the last five). *)
Definition gemini_text (cfg : Config) (w : World) : string :=
  if gemini_api_key cfg then
    match w_gemini w with
    | GeminiOk s => s
    | GeminiStatus code body => "Error: Gemini API " ++ code ++ " - " ++ body
    | GeminiNoCandidates => "Error: No response from Gemini"
    | GeminiError m => "Error calling Gemini: " ++ m
    end
  else "Error: Gemini API Key not configured".

(** ** Postconditions of [M] computations *)

(** [Mpost P m]: every value [m] returns satisfies [P]. *)
Definition Mpost {A} (P : A -> Prop) (m : M A) : Prop :=
  forall t, match snd (m t) with inr a => P a | inl _ => True end.

(** [Mtotal m]: [m] never lets an exception escape. *)
Definition Mtotal {A} (m : M A) : Prop :=
  forall t, exists a, snd (m t) = inr a.

Lemma Mpost_ret {A} (P : A -> Prop) (a : A) : P a -> Mpost P (mret a).
Proof. intros H t. exact H. Qed.

Lemma Mpost_raise {A} (P : A -> Prop) (e : exn) : Mpost P (raise e).
Proof. intros t. exact I. Qed.

Lemma Mpost_bind {A B} (P : B -> Prop) (m : M A) (k : A -> M B) :
  (forall a, Mpost P (k a)) -> Mpost P (mbind m k).
Proof.
  intros Hk t. unfold mbind. destruct (m t) as [t' [e|a]]; [exact I|apply Hk].
Qed.

Lemma Mpost_try {A} (P : A -> Prop) (m : M A) (h : exn -> M A) :
  Mpost P m -> (forall e, Mpost P (h e)) -> Mpost P (try_except m h).
Proof.
  intros Hm Hh t. unfold try_except. specialize (Hm t).
  destruct (m t) as [t' [e|a]] eqn:E; [apply Hh|exact Hm].
Qed.

Lemma Mpost_invoke (P : unit -> Prop) (p : string) : P tt -> Mpost P (invoke p).
Proof. intros H t. exact H. Qed.

Lemma Mtotal_try {A} (m : M A) (h : exn -> A) : Mtotal (try_except m (fun e => mret (h e))).
Proof.
  intros t. unfold try_except. destruct (m t) as [t' [e|a]]; eexists; reflexivity.
Qed.

Lemma Mtotal_bind {A B} (m : M A) (k : A -> M B) :
  Mtotal m -> (forall a, Mtotal (k a)) -> Mtotal (mbind m k).
Proof.
  intros Hm Hk t. unfold mbind. destruct (Hm t) as [a Ha].
  destruct (m t) as [t' r]. simpl in Ha. subst r. apply Hk.
Qed.

Lemma Mtotal_ret {A} (a : A) : Mtotal (mret a).
Proof. intros t. eexists; reflexivity. Qed.

Create HintDb mpost.
#[local] Hint Resolve Mpost_ret Mpost_raise Mpost_invoke : mpost.

(** Walk through a computation, splitting on its conditionals. *)
Ltac mpost_step :=
  match goal with
  | |- Mpost _ (mbind _ _) => apply Mpost_bind; intro
  | |- Mpost _ (try_except _ _) => apply Mpost_try; [|intro]
  | |- Mpost _ (raise _) => apply Mpost_raise
  | |- Mpost _ (mret _) => apply Mpost_ret
  | |- Mpost _ (if ?b then _ else _) => destruct b
  | |- Mpost _ (match ?x with _ => _ end) => destruct x
  end.

Ltac mpost := repeat (cbv beta iota zeta; mpost_step).

(** ** Forced providers: [is_complex] and [is_vision] are unbound *)

Lemma forced_generate_is_safety_net (cfg : Config) (w : World) (message sp : string)
    (history : list HistItem) (fast : bool) (p : string) :
  In p ["groq"; "openrouter"; "xai"; "ollama"] ->
  run_generate cfg w message sp history p fast = safety_net cfg w message sp history [].
Proof.
  intros Hp.
  destruct Hp as [<-|[<-|[<-|[<-|[]]]]];
    destruct cfg as [[] [] [] [] [] [] []]; reflexivity.
Qed.

Lemma safety_net_outcome (cfg : Config) (w : World) (message sp : string) (history : list HistItem) :
  exists r, safety_net cfg w message sp history [] = (["gemini"], inr r) /\
    fallback r = true /\
    ((provider r = Some "gemini" /\ model r = Some "gemini-1.5-flash-cleanup" /\ error r = None)
     \/ (response r = apology /\ provider r = None /\ error r <> None)).
Proof.
  unfold safety_net, try_except, mbind, gemini_generate, mbind, invoke.
  destruct (gemini_api_key cfg); simpl.
  - destruct (existsb hist_bad (last_n 5 history)); simpl.
    + eexists; split; [reflexivity|]; split; [reflexivity|]; right; simpl; repeat split; discriminate.
    + destruct (w_gemini w); simpl; eexists; split; try reflexivity; split; try reflexivity;
        left; simpl; repeat split.
  - eexists; split; [reflexivity|]; split; [reflexivity|]; left; simpl; repeat split.
Qed.

Lemma Mpost_bind_post {A B} (Q : A -> Prop) (P : B -> Prop) (m : M A) (k : A -> M B) :
  Mpost Q m -> (forall a, Q a -> Mpost P (k a)) -> Mpost P (mbind m k).
Proof.
  intros Hm Hk t. unfold mbind. specialize (Hm t).
  destruct (m t) as [t' [e|a]]; [exact I|apply Hk; exact Hm].
Qed.

Definition no_error (o : option Result) : Prop := forall r, o = Some r -> error r = None.

Lemma primary_post cfg w message sp history provider fast ic iv :
  Mpost no_error (try_except (primary cfg w message sp history provider fast ic iv)
                             (fun _ => mret None)).
Proof.
  apply Mpost_try; [unfold primary; mpost | intros; apply Mpost_ret];
    unfold no_error; intros r Hr; try discriminate; injection Hr as <-; reflexivity.
Qed.

Lemma backup_post cfg w fast ic iv :
  Mpost (fun r => error r = None) (backup cfg w fast ic iv).
Proof. unfold backup; mpost; reflexivity. Qed.

(** The Gemini safety net only reports an error when the Gemini adapter
    raised, which it does only on a malformed history entry. *)
Definition apology_only_on_gemini_raise (cfg : Config) (history : list HistItem) (r : Result) :=
  error r <> None ->
  response r = apology /\ provider r = None /\
  gemini_api_key cfg = true /\ existsb hist_bad (last_n 5 history) = true.

Lemma safety_net_post cfg w message sp history :
  Mpost (apology_only_on_gemini_raise cfg history) (safety_net cfg w message sp history).
Proof.
  intros t. unfold safety_net, try_except, mbind, gemini_generate, mbind, invoke, mret, raise.
  unfold apology_only_on_gemini_raise.
  destruct (gemini_api_key cfg) eqn:Hk; simpl.
  - destruct (existsb hist_bad (last_n 5 history)) eqn:Hh; simpl.
    + intros _. auto.
    + destruct (w_gemini w); simpl; intros H; contradiction H; reflexivity.
  - intros H; contradiction H; reflexivity.
Qed.

Lemma generate_post cfg w message sp history provider fast :
  Mpost (apology_only_on_gemini_raise cfg history) (generate cfg w message sp history provider fast).
Proof.
  unfold generate.
  match goal with |- Mpost _ (match ?x with _ => _ end) => destruct x as [[[p sp'] ic] iv] end.
  eapply Mpost_bind_post; [apply primary_post|].
  intros [res|] Hres.
  - apply Mpost_ret. unfold apology_only_on_gemini_raise. rewrite (Hres res eq_refl). intros H; contradiction H; reflexivity.
  - eapply Mpost_bind_post with (Q := no_error).
    + destruct (ollama_is_available cfg).
      * apply Mpost_try.
        -- eapply Mpost_bind_post; [apply backup_post|].
           intros r Hr. apply Mpost_ret. intros r' E. injection E as <-. exact Hr.
        -- intros. apply Mpost_ret. intros r' E; discriminate.
      * apply Mpost_ret. intros r' E; discriminate.
    + intros [res2|] Hres2.
      * apply Mpost_ret. unfold apology_only_on_gemini_raise. rewrite (Hres2 res2 eq_refl). intros H; contradiction H; reflexivity.
      * apply safety_net_post.
Qed.

Lemma generate_total cfg w message sp history provider fast :
  Mtotal (generate cfg w message sp history provider fast).
Proof.
  unfold generate.
  match goal with |- Mtotal (match ?x with _ => _ end) => destruct x as [[[p sp'] ic] iv] end.
  apply Mtotal_bind; [apply (Mtotal_try _ (fun _ => None))|].
  intros [res|]; [apply Mtotal_ret|].
  apply Mtotal_bind.
  - destruct (ollama_is_available cfg); [apply (Mtotal_try _ (fun _ => None))|apply Mtotal_ret].
  - intros [res2|]; [apply Mtotal_ret|].
    unfold safety_net. apply (Mtotal_try _ (fun e => mkRes apology None None true (Some (str_exn e)))).
Qed.

(** ** Which adapters a call reaches *)

(** Split on every conditional of an unfolded computation. *)
Ltac split_all :=
  repeat (cbn beta iota zeta;
          match goal with
          | |- context[if ?b then _ else _] => destruct b
          | |- context[match ?x with _ => _ end] => is_var x; destruct x
          | |- context[match w_groq ?w with _ => _ end] => destruct (w_groq w)
          | |- context[match w_ollama ?w with _ => _ end] => destruct (w_ollama w)
          | |- context[match w_gemini ?w with _ => _ end] => destruct (w_gemini w)
          | |- context[match w_openrouter ?w with _ => _ end] => destruct (w_openrouter w)
          | |- context[match w_xai ?w with _ => _ end] => destruct (w_xai w)
          | |- context[match nth_error ?l ?n with _ => _ end] => destruct (nth_error l n)
          end).

Lemma mbind_run {A B} (m : M A) (k : A -> M B) (t : list string) :
  mbind m k t = match m t with (t', inl e) => (t', inl e) | (t', inr a) => k a t' end.
Proof. reflexivity. Qed.

Lemma try_none_calls {A} (m : M (option A)) (t : list string) :
  fst (try_except m (fun _ => mret None) t) = fst (m t).
Proof. unfold try_except. destruct (m t) as [t' [e|a]]; reflexivity. Qed.

Lemma bind_ret_calls {A B} (m : M A) (f : A -> B) (t : list string) :
  fst (mbind m (fun a => mret (f a)) t) = fst (m t).
Proof. unfold mbind. destruct (m t) as [t' [e|a]]; reflexivity. Qed.

(** The primary step reaches at most one adapter. *)
Lemma primary_calls cfg w message sp history provider fast ic iv t :
  exists d, fst (primary cfg w message sp history provider fast ic iv t) = app t d /\
            length d <= 1.
Proof.
  unfold primary, groq_generate, chat_generate, gemini_generate, ollama_invoke, parse_action,
    read_local, mbind, try_except, mret, raise, invoke.
  split_all;
  first [ exists []; rewrite app_nil_r; split; [reflexivity|simpl; lia]
        | eexists; split; [reflexivity|simpl; lia] ].
Qed.

(** The backup reaches Ollama or nothing. *)
Lemma backup_calls cfg w fast ic iv t :
  exists d, fst (backup cfg w fast ic iv t) = app t d /\ (d = [] \/ d = ["ollama"]).
Proof.
  unfold backup, ollama_invoke, read_local, mbind, mret, raise, invoke.
  split_all;
  first [ exists []; rewrite app_nil_r; split; [reflexivity|left; reflexivity]
        | eexists; split; [reflexivity|right; reflexivity] ].
Qed.

(** The safety net reaches Gemini. *)
Lemma safety_net_calls cfg w message sp history t :
  fst (safety_net cfg w message sp history t) = app t ["gemini"].
Proof.
  unfold safety_net, gemini_generate, try_except, mbind, mret, raise, invoke.
  split_all; reflexivity.
Qed.

Lemma try_run {A} (m : M A) (h : exn -> M A) (t : list string) :
  try_except m h t = match m t with (t', inl e) => h e t' | r => r end.
Proof. reflexivity. Qed.

(** A returning backup reached Ollama and is marked as a fallback. *)
Lemma backup_ok cfg w fast ic iv t t2 r :
  backup cfg w fast ic iv t = (t2, inr r) ->
  t2 = app t ["ollama"] /\ provider r = Some "ollama" /\ fallback r = true /\ error r = None.
Proof.
  unfold backup, ollama_invoke, read_local, mbind, mret, raise, invoke.
  split_all; intros H; inversion H; subst; auto.
Qed.

(** Whatever the primary step returns is not marked as a fallback. *)
Lemma primary_result cfg w message sp history p fast ic iv t t1 r :
  primary cfg w message sp history p fast ic iv t = (t1, inr (Some r)) ->
  fallback r = false /\ error r = None.
Proof.
  unfold primary, groq_generate, chat_generate, gemini_generate, ollama_invoke, parse_action,
    read_local, mbind, try_except, mret, raise, invoke.
  split_all; intros H; inversion H; subst; auto.
Qed.

(** The safety net's result. *)
Lemma safety_net_result cfg w message sp history t :
  safety_net cfg w message sp history t =
    (app t ["gemini"],
     inr (if gemini_api_key cfg && existsb hist_bad (last_n 5 history)
          then mkRes apology None None true
                 (Some (str_exn (AttributeError (first_bad_type (last_n 5 history)))))
          else mkRes (gemini_text cfg w) (Some "gemini") (Some "gemini-1.5-flash-cleanup")
                     true None)).
Proof.
  unfold safety_net, gemini_generate, gemini_text, try_except, mbind, mret, raise, invoke.
  destruct (gemini_api_key cfg); cbn [andb negb]; [|reflexivity].
  destruct (existsb hist_bad (last_n 5 history)); [reflexivity|].
  destruct (w_gemini w); reflexivity.
Qed.

(** The stages of [generate]: the primary step; when it raises or no
    branch handles the provider, the Ollama backup if Ollama is
    configured; when that raises or Ollama is not configured, the Gemini
    safety net. *)
Lemma generate_stages (cfg : Config) (w : World) (message sp : string)
    (history : list HistItem) (provider : string) (fast : bool) :
  let '(p, sp', ic, iv) := generate_inputs cfg w message sp provider fast in
  let '(t1, o1) := primary cfg w message sp' history p fast ic iv [] in
  (length t1 <= 1)%nat /\
  match o1 with
  | inr (Some res) => run_generate cfg w message sp history provider fast = (t1, inr res)
  | _ =>
      if ollama_is_available cfg then
        let '(t2, o2) := backup cfg w fast ic iv t1 in
        match o2 with
        | inr res =>
            run_generate cfg w message sp history provider fast = (t2, inr res) /\
            t2 = app t1 ["ollama"]
        | inl _ =>
            run_generate cfg w message sp history provider fast =
              safety_net cfg w message sp' history t2 /\
            (t2 = t1 \/ t2 = app t1 ["ollama"])
        end
      else
        run_generate cfg w message sp history provider fast = safety_net cfg w message sp' history t1
  end.
Proof.
  unfold run_generate, generate, generate_inputs.
  destruct (String.eqb provider "auto");
    [destruct (auto_route cfg w message sp fast) as [[[p0 s0] c0] v0] |];
    cbn beta iota;
  match goal with |- context[primary cfg w message ?sp' history ?p fast ?ic ?iv []] =>
    destruct (primary_calls cfg w message sp' history p fast ic iv []) as [d [Hd Hl]];
    cbv [mbind try_except mret];
    destruct (primary cfg w message sp' history p fast ic iv []) as [t1 o1] eqn:EP;
    cbn [fst] in Hd; subst t1; cbn [app]; split; [exact Hl|];
    destruct o1 as [e|[res|]]; cbn beta iota;
    [ | reflexivity | ];
    destruct (ollama_is_available cfg) eqn:Ho; cbn beta iota; try reflexivity;
    destruct (backup_calls cfg w fast ic iv d) as [d2 [Hd2 Hd2']];
    destruct (backup cfg w fast ic iv d) as [t2 [e2|r2]] eqn:EB; cbn [fst] in Hd2; subst t2;
    cbn beta iota;
    first
      [ split; [reflexivity|]; destruct Hd2' as [->| ->]; [left; rewrite app_nil_r|right];
        reflexivity
      | split; [reflexivity|]; destruct (backup_ok _ _ _ _ _ _ _ _ EB) as [E _]; exact E ]
  end.
Qed.

End RouterFacts.

Module RouterClaims.

Import Router RouterFacts.

(** C2 (amended): [ModelRouter.generate] never lets an exception escape:
    every call returns a result dictionary. The result has
    [fallback = False] exactly when the primary provider's branch
    returned it. Otherwise it comes from the Ollama backup (provider
    ["ollama"], no [error]) or from the Gemini safety net: the apology
    with a populated [error] only when the Gemini adapter raised
    (configured, with a malformed history entry among the last five);
    in every other case whatever text Gemini's adapter returned,
    including its ["Error: ..."] texts, with provider ["gemini"],
    [fallback = True] and no [error]. *)
Theorem generate_never_raises_apology_on_gemini_raise
    (cfg : Config) (w : World) (message sp : string) (history : list HistItem)
    (provider : string) (fast : bool) :
  let '(p, sp', ic, iv) := generate_inputs cfg w message sp provider fast in
  exists calls r,
    run_generate cfg w message sp history provider fast = (calls, inr r) /\
    (fallback r = false <-> snd (primary cfg w message sp' history p fast ic iv []) = inr (Some r)) /\
    (fallback r = true ->
       (Router.provider r = Some "ollama" /\ error r = None) \/
       (gemini_api_key cfg && existsb hist_bad (last_n 5 history) = false /\
        r = mkRes (gemini_text cfg w) (Some "gemini") (Some "gemini-1.5-flash-cleanup") true None) \/
       (gemini_api_key cfg && existsb hist_bad (last_n 5 history) = true /\
        r = mkRes apology None None true
              (Some ("'" ++ first_bad_type (last_n 5 history) ++ "' object has no attribute 'get'")))) /\
    (error r <> None ->
     response r = apology /\ Router.provider r = None /\
     gemini_api_key cfg = true /\ existsb hist_bad (last_n 5 history) = true).
Proof.
  pose proof (generate_stages cfg w message sp history provider fast) as G.
  pose proof (generate_post cfg w message sp history provider fast []) as Hpost.
  change (generate cfg w message sp history provider fast [])
    with (run_generate cfg w message sp history provider fast) in Hpost.
  destruct (generate_inputs cfg w message sp provider fast) as [[[p sp'] ic] iv].
  destruct (primary cfg w message sp' history p fast ic iv []) as [t1 o1] eqn:EP.
  destruct G as [_ G]. cbn [snd].
  destruct o1 as [e|[res|]].
  2:{ rewrite G in Hpost |- *. exists t1, res. cbn [snd] in Hpost.
      destruct (primary_result _ _ _ _ _ _ _ _ _ _ _ _ EP) as [F E].
      split; [reflexivity|]. split; [split; [reflexivity|intros _; exact F]|].
      split; [rewrite F; discriminate|exact Hpost]. }
  all: destruct (ollama_is_available cfg).
  all: try (destruct (backup cfg w fast ic iv t1) as [t2 [e2|r2]] eqn:EB).
  all: try (match type of G with _ /\ _ => destruct G as [G _] end).
  all: rewrite G in Hpost |- *; cbn [snd] in Hpost.
  all: try (rewrite safety_net_result in Hpost |- *; cbn [snd] in Hpost;
            destruct (gemini_api_key cfg && existsb hist_bad (last_n 5 history)) eqn:Eg;
            (eexists; eexists; split; [reflexivity|]);
            (split; [split; [discriminate|discriminate]|]);
            (split; [intros _; right; first [right; split; [reflexivity|reflexivity]
                                              | left; split; [reflexivity|reflexivity]]
                    |exact Hpost])).
  all: destruct (backup_ok _ _ _ _ _ _ _ _ EB) as [_ [P [F E]]].
  all: exists t2, r2; (split; [reflexivity|]).
  all: split; [rewrite F; split; discriminate|].
  all: split; [intros _; left; split; assumption|exact Hpost].
Qed.


(** C2 counterexample: auto routing picks Groq, Groq raises, the Ollama
    backup raises, Gemini answers HTTP 503. Every provider failed, yet the
    result carries the adapter's error text and no [error] field. *)
Lemma generate_all_fail_without_apology :
  run_generate Samples.cfg_groq_ollama_gemini Samples.world_all_fail "hello" "" [] "auto" false
  = (["groq"; "ollama"; "gemini"],
     inr (mkRes "Error: Gemini API 503 - Service Unavailable" (Some "gemini")
                (Some "gemini-1.5-flash-cleanup") true None)).
Proof. vm_compute. reflexivity. Qed.

(** C10: a call with [provider] forced to ["groq"], ["openrouter"],
    ["xai"] or ["ollama"] never reaches that provider: its branch (and the
    Ollama backup) read the unbound locals [is_complex]/[is_vision], the
    [UnboundLocalError] is caught, and only the Gemini safety net is
    invoked. The result is the safety-net result or the apology, with
    [fallback = true], and its provider is never the requested one. *)
Theorem forced_provider_never_served
    (cfg : Config) (w : World) (message sp : string) (history : list HistItem)
    (fast : bool) (p : string) (Hp : In p ["groq"; "openrouter"; "xai"; "ollama"]) :
  exists r,
    run_generate cfg w message sp history p fast = (["gemini"], inr r) /\
    Router.provider r <> Some p /\ fallback r = true /\
    ((Router.provider r = Some "gemini" /\ model r = Some "gemini-1.5-flash-cleanup")
     \/ (response r = apology /\ error r <> None)).
Proof.
  rewrite (forced_generate_is_safety_net cfg w message sp history fast p Hp).
  destruct (safety_net_outcome cfg w message sp history)
    as [r [E [F [[P [Mo _]] | [A [P Er]]]]]]; exists r; rewrite E.
  - split; [reflexivity|]. rewrite P. split; [|split; [exact F|left; split; [reflexivity|assumption]]].
    intros H; injection H as <-.
    destruct Hp as [Hp|[Hp|[Hp|[Hp|[]]]]]; discriminate Hp.
  - split; [reflexivity|]. rewrite P. split; [discriminate|].
    split; [exact F|right; split; assumption].
Qed.

Lemma forced_provider_never_served_witness :
  In "groq" ["groq"; "openrouter"; "xai"; "ollama"] /\
  exists r,
    run_generate Samples.cfg_groq_ollama_gemini Samples.world_all_ok "hello" "" [] "groq" false
      = (["gemini"], inr r) /\
    Router.provider r <> Some "groq" /\ fallback r = true /\
    ((Router.provider r = Some "gemini" /\ model r = Some "gemini-1.5-flash-cleanup")
     \/ (response r = apology /\ error r <> None)).
Proof.
  split; [simpl; left; reflexivity|].
  apply (forced_provider_never_served Samples.cfg_groq_ollama_gemini Samples.world_all_ok
           "hello" "" [] false "groq").
  simpl; left; reflexivity.
Defined.

(** C3 (amended): the primary step reaches at most one adapter. When
    it returns a result, that result is the answer and nothing else runs.
    When it raises or no branch handles the provider, the Ollama backup
    runs if Ollama is configured; a returning backup (which reached
    Ollama) is the answer. When the backup raises or Ollama is not
    configured, the Gemini safety net runs and reaches Gemini. So at most
    two further providers are tried, in the fixed order Ollama then
    Gemini. *)
Theorem generate_fallback_order
    (cfg : Config) (w : World) (message sp : string) (history : list HistItem)
    (provider : string) (fast : bool) :
  let '(p, sp', ic, iv) := generate_inputs cfg w message sp provider fast in
  let '(t1, o1) := primary cfg w message sp' history p fast ic iv [] in
  (length t1 <= 1)%nat /\
  match o1 with
  | inr (Some res) => run_generate cfg w message sp history provider fast = (t1, inr res)
  | _ =>
      if ollama_is_available cfg then
        let '(t2, o2) := backup cfg w fast ic iv t1 in
        match o2 with
        | inr res =>
            run_generate cfg w message sp history provider fast = (t2, inr res) /\
            t2 = app t1 ["ollama"] /\ Router.provider res = Some "ollama" /\ fallback res = true
        | inl _ =>
            run_generate cfg w message sp history provider fast =
              safety_net cfg w message sp' history t2 /\
            fst (run_generate cfg w message sp history provider fast) = app t2 ["gemini"] /\
            (t2 = t1 \/ t2 = app t1 ["ollama"])
        end
      else
        run_generate cfg w message sp history provider fast =
          safety_net cfg w message sp' history t1 /\
        fst (run_generate cfg w message sp history provider fast) = app t1 ["gemini"]
  end.
Proof.
  pose proof (generate_stages cfg w message sp history provider fast) as G.
  destruct (generate_inputs cfg w message sp provider fast) as [[[p sp'] ic] iv].
  destruct (primary cfg w message sp' history p fast ic iv []) as [t1 o1].
  destruct G as [Hl G]. split; [exact Hl|].
  destruct o1 as [e|[res|]]; [| exact G |];
    (destruct (ollama_is_available cfg);
     [ destruct (backup cfg w fast ic iv t1) as [t2 [e2|r2]] eqn:EB;
       [ destruct G as [G1 G2]; rewrite G1, safety_net_calls;
         split; [reflexivity|split; [reflexivity|exact G2]]
       | destruct G as [G1 G2]; destruct (backup_ok _ _ _ _ _ _ _ _ EB) as [_ [P [F _]]];
         split; [exact G1|split; [exact G2|split; [exact P|exact F]]] ]
     | rewrite G, safety_net_calls; split; reflexivity ]).
Qed.


(** C3 counterexample: Groq (primary) raises, then both Ollama and Gemini
    are tried: two providers after the primary, not one. *)
Lemma generate_tries_two_fallbacks :
  fst (run_generate Samples.cfg_groq_ollama_gemini Samples.world_all_fail "hello" "" [] "auto" false)
  = ["groq"; "ollama"; "gemini"].
Proof. vm_compute. reflexivity. Qed.

(** C7 (code bug): a draft produced by Gemini is sent to the verifier
    with provider ["groq"]; that forced branch reads the unassigned
    [is_complex] and raises, so the verification is served by the Gemini
    safety net (or ends in the apology, with no provider): never by a
    provider other than Gemini, even with Groq configured and healthy. *)
Theorem gemini_draft_verified_by_gemini :
  (forall (cfg : Config) (w : World) (resp : string) (q : option string),
     In (CrossVerifier.served_by cfg w resp (CrossVerifier.mkCVC q (Some "gemini")))
        [Some "gemini"; None]) /\
  CrossVerifier.served_by Samples.cfg_groq_gemini Samples.world_all_ok "draft"
    (CrossVerifier.mkCVC (Some "query") (Some "gemini")) = Some "gemini".
Proof.
  split.
  - intros cfg w resp q.
    unfold CrossVerifier.served_by, CrossVerifier.verification_call.
    cbn [default CrossVerifier.cv_original_query CrossVerifier.cv_provider_used].
    change (CrossVerifier.verifier_provider "gemini") with "groq".
    rewrite forced_generate_is_safety_net by (simpl; auto).
    destruct (safety_net_outcome cfg w
                (CrossVerifier.verification_prompt (default "" q) resp)
                CrossVerifier.system_prompt [])
      as [r [E [_ [[P _]|[_ [P _]]]]]];
      rewrite E; cbn [snd]; rewrite P; simpl; auto.
  - vm_compute. reflexivity.
Qed.

End RouterClaims.

(* ================================================================= *)
(** ** Quota manager *)
(* ================================================================= *)

Module QuotaFacts.

Import Quota.

Lemma step_month_irrelevant (qm : QuotaManager) (m1 m2 : string) (op : Op) :
  step qm (m1, op) = step qm (m2, op).
Proof. reflexivity. Qed.

Lemma run_month_irrelevant (qm : QuotaManager) (ops : list (string * Op)) (m : string) :
  run qm ops = run qm (map (fun o => (m, snd o)) ops).
Proof.
  revert qm. induction ops as [|[m0 op] ops IH]; intros qm; [reflexivity|].
  simpl. rewrite (step_month_irrelevant qm m0 m op).
  destruct (step qm (m, op)) as [qm1 out]. rewrite IH. reflexivity.
Qed.

End QuotaFacts.

Module QuotaClaims.

Import Quota QuotaFacts.

(** C1 (code bug): [can_use] and [record_usage] never look at the clock;
    only [_load_usage] does, once, when the manager is built. So the
    outcome of any sequence of operations on one manager is the same
    whatever the months at which they are issued, and a manager loaded in
    September 2026 with Brave at 2000 still refuses Brave in October and
    counts on to 2001 under the stored month ["2026-09"], with no reset. *)
Theorem quota_never_resets_after_load :
  (forall (qm : QuotaManager) (ops : list (string * Op)) (m : string),
      run qm ops = run qm (map (fun o => (m, snd o)) ops)) /\
  (let '(qm, outs) :=
     run Samples.qm_sep_exhausted
         [("2026-10", CanUse "brave"); ("2026-10", RecordUsage "brave")] in
   outs = [Some false; None] /\ get (usage qm) "brave" = 2001%Z /\
   month (usage qm) = "2026-09").
Proof.
  split.
  - intros qm ops m. apply run_month_irrelevant.
  - vm_compute. split; [reflexivity|split; reflexivity].
Qed.

End QuotaClaims.

(* ================================================================= *)
(** ** Web search gateway *)
(* ================================================================= *)

Module SearchFacts.

Import Quota Search.

Lemma search_brave_calls env q cnt st : calls (snd (search_brave env q cnt st)) = calls st.
Proof.
  unfold search_brave.
  destruct (brave_key env), (can_use (quota st) "brave"), (brave_reply env); reflexivity.
Qed.

Lemma search_tavily_calls env q cnt st : calls (snd (search_tavily env q cnt st)) = calls st.
Proof.
  unfold search_tavily.
  destruct (tavily_key env), (can_use (quota st) "tavily"), (tavily_reply env); reflexivity.
Qed.

Lemma knowledge_calls env q st : calls (snd (groq_knowledge_fallback env q st)) = calls st.
Proof. unfold groq_knowledge_fallback. destruct (groq_reply env); reflexivity. Qed.

Lemma tier1_calls env q cnt st :
  exists d, calls (snd (tier1 env q cnt st)) = app (calls st) d /\
            (fst (tier1 env q cnt st) <> [] -> d = ["brave"]).
Proof.
  unfold tier1. destruct (brave_key env && can_use (quota st) "brave").
  - exists ["brave"]. rewrite search_brave_calls. split; reflexivity.
  - exists []. rewrite app_nil_r. split; [reflexivity|]. intros H; contradiction H; reflexivity.
Qed.

End SearchFacts.

Module SearchClaims.

Import Quota Search SearchFacts.

(** C4 (amended): when the Groq call succeeds, the tier-3 knowledge
    fallback returns exactly one result, flagged [is_fallback = True]
    (the flag the specification calls [is_ai_fallback]), and the response
    has [is_fallback = True]; when the Groq call raises, it returns no
    result at all, [success = False], no [is_fallback] key and the
    exception text under [error]. *)
Theorem knowledge_fallback_response (env : SearchEnv) (q : string) (st : SearchState) :
  let resp := fst (groq_knowledge_fallback env q st) in
  match groq_reply env with
  | GroqText r =>
      results resp = [mkSR "AI Knowledge Response" "" r "groq_knowledge" (Some true) None] /\
      is_fallback resp = Some true /\ success resp = true
  | GroqRaises e =>
      results resp = [] /\ is_fallback resp = None /\ success resp = false /\
      error resp = Some e
  end.
Proof.
  unfold groq_knowledge_fallback. simpl.
  destruct (groq_reply env); repeat split.
Qed.

(** C4 counterexample: with no search key and no Groq key, [smart_search]
    ends in the knowledge fallback, whose response has no result and no
    [is_fallback] flag. *)
Lemma knowledge_fallback_without_result :
  let resp := fst (smart_search Samples.env_groq_unconfigured "q" 5 Samples.search_state0) in
  results resp = [] /\ is_fallback resp = None /\
  error resp = Some "Groq API key not configured".
Proof. vm_compute. split; [reflexivity|split; reflexivity]. Qed.

(** C5: the tiers [smart_search] invokes are logged in order. When tier 1
    (Brave) returns a non-empty list, whatever its length, Brave is the
    only tier invoked and its list is returned with source ["brave"];
    Tavily (tier 2) is invoked only when tier 1 returned nothing, which is
    also what tier 1 returns when Brave is unconfigured or over quota. *)
Theorem smart_search_tier_order (env : SearchEnv) (q : string) (cnt : nat) (st : SearchState) :
  exists new,
    calls (snd (smart_search env q cnt st)) = app (calls st) new /\
    (fst (tier1 env q cnt st) <> [] ->
       new = ["brave"] /\
       results (fst (smart_search env q cnt st)) = fst (tier1 env q cnt st) /\
       source (fst (smart_search env q cnt st)) = Some "brave") /\
    (In "tavily" new -> fst (tier1 env q cnt st) = []).
Proof.
  destruct (tier1_calls env q cnt st) as [d [Hd Hne]].
  unfold smart_search.
  destruct (tier1 env q cnt st) as [r1 st1]. cbn [fst snd] in *.
  destruct r1 as [|x xs].
  - destruct (tavily_key env && can_use (quota st1) "tavily").
    + pose proof (search_tavily_calls env q cnt (log_call "tavily" st1)) as Ht.
      destruct (search_tavily env q cnt (log_call "tavily" st1)) as [r s].
      cbn [fst snd calls log_call] in Ht.
      destruct r as [|y ys].
      * exists (app d ["tavily"; "groq_knowledge"]).
        rewrite knowledge_calls. cbn [calls log_call].
        rewrite Ht, Hd, <- !app_assoc.
        split; [reflexivity|split; [intros H; contradiction H; reflexivity|reflexivity]].
      * exists (app d ["tavily"]). cbn [calls snd].
        rewrite Ht, Hd, <- !app_assoc.
        split; [reflexivity|split; [intros H; contradiction H; reflexivity|reflexivity]].
    + exists (app d ["groq_knowledge"]).
      rewrite knowledge_calls. cbn [calls log_call].
      rewrite Hd, <- !app_assoc.
      split; [reflexivity|split; [intros H; contradiction H; reflexivity|reflexivity]].
  - exists d. cbn [snd fst results source].
    rewrite (Hne ltac:(discriminate)) in *.
    split; [exact Hd|split].
    + intros _. split; [reflexivity|split; reflexivity].
    + intros [H|[]]. discriminate H.
Qed.

End SearchClaims.

(* ================================================================= *)
(** ** Critic, fact-checker and orchestrator *)
(* ================================================================= *)

Module AgentClaims.

Import Search.

(** C6: every path of the Critic returns [approved = True]. When the
    intent is neither auto-approved kind and the reviewer does not answer
    approved, the final text is the part after the last ["IMPROVED:"]
    (stripped) if the reply contains that marker, and otherwise the draft
    followed by the generic disclaimer. *)
Theorem critic_never_blocks (user_message : string) (ctx : Critic.CriticContext)
    (review_result : string) :
  Critic.cr_approved (Critic.process user_message ctx review_result) = true /\
  (option_eq_bool (default (Some "general") (Critic.cc_intent ctx)) "general" = false ->
   (option_eq_bool (default (Some "general") (Critic.cc_intent ctx)) "tool"
      && default false (Critic.cc_tool_success ctx)) = false ->
   Critic.is_approved review_result = false ->
   Critic.cr_final_response (Critic.process user_message ctx review_result) =
     if contains "IMPROVED:" review_result
     then strip (last_of (split "IMPROVED:" review_result))
     else default "" (Critic.cc_draft_response ctx) ++ Critic.disclaimer).
Proof.
  unfold Critic.process.
  destruct (option_eq_bool (default (Some "general") (Critic.cc_intent ctx)) "general");
    [split; [reflexivity|discriminate]|].
  destruct (option_eq_bool (default (Some "general") (Critic.cc_intent ctx)) "tool"
              && default false (Critic.cc_tool_success ctx));
    [split; [reflexivity|intros _; discriminate]|].
  destruct (Critic.is_approved review_result);
    [split; [reflexivity|intros _ _; discriminate]|].
  destruct (contains "IMPROVED:" review_result); split; reflexivity.
Qed.

(** C8: the message ["Hello"] without a forced agent is classified by the
    fast path as intent ["general"] for the [GeneralAgent]; no stage runs
    (neither the LLM router nor the Critic, Cross-Verifier or
    Fact-Checker), and the result has [reviewed = True] and
    [verified = False], whatever [verify_facts] is. *)
Theorem hello_takes_fast_path (ow : Orchestrator.OrchWorld) (verify_facts : bool) :
  let '(stages, r) := Orchestrator.process_message ow "Hello" verify_facts None in
  stages = [] /\ Orchestrator.o_intent r = Some "general" /\
  Orchestrator.o_agent_used r = "GeneralAgent" /\
  Orchestrator.o_reviewed r = true /\ Orchestrator.o_verified r = false.
Proof.
  unfold Orchestrator.process_message, Orchestrator.route.
  replace (Orchestrator.fast_path "Hello") with (Some "general", Some "GeneralAgent")
    by (vm_compute; reflexivity).
  destruct verify_facts; vm_compute; repeat split.
Qed.

(** C9 (amended): a checked claim scores 0.9, 0.1 or 0.5 from the
    verdict (SUPPORTED, CONTRADICTED, otherwise), and 0.3 when its search
    fails or the verdict call raises. When extraction yields claims, the
    overall confidence is the mean over the first three; when it yields
    none, the draft is returned unchanged with confidence 0.95, verified
    and zero claims checked: the 0.8 default of [_calculate_confidence]
    is never reached from [process]. *)
Theorem fact_checker_confidence (fw : FactChecker.FactWorld) (message original_query : string)
    (existing_sources : list SearchResult) :
  (forall claim,
     FactChecker.vr_confidence (FactChecker.verify_claim fw claim original_query) =
     if negb (success (FactChecker.fw_search fw (take 100 (claim ++ " " ++ original_query))))
     then (3 # 10)%Q
     else match FactChecker.fw_verify fw claim with
          | GroqRaises _ => (3 # 10)%Q
          | GroqText v =>
              if contains "supported" (lower v) then (9 # 10)%Q
              else if contains "contradicted" (lower v) then (1 # 10)%Q
              else (1 # 2)%Q
          end) /\
  let r := FactChecker.process fw message original_query existing_sources in
  match FactChecker.extract_claims fw message with
  | [] => r = FactChecker.mkFC message (19 # 20)%Q true 0 None existing_sources
  | claims =>
      let checked := map (fun c => FactChecker.verify_claim fw c original_query) (firstn 3 claims) in
      FactChecker.fc_confidence r =
        (FactChecker.sumQ (map FactChecker.vr_confidence checked)
          / inject_Z (Z.of_nat (length checked)))%Q /\
      FactChecker.fc_claims_checked r = length claims
  end.
Proof.
  split.
  - intros claim. unfold FactChecker.verify_claim.
    destruct (negb (success _)); [reflexivity|].
    destruct (FactChecker.fw_verify fw claim) as [v|e]; [|reflexivity].
    unfold FactChecker.verdict.
    destruct (contains "supported" (lower v)); [reflexivity|].
    destruct (contains "contradicted" (lower v)); reflexivity.
  - cbv zeta. unfold FactChecker.process.
    destruct (FactChecker.extract_claims fw message) as [|c cs]; [reflexivity|].
    cbn [firstn map length FactChecker.fc_confidence FactChecker.fc_claims_checked].
    split; [|reflexivity].
    destruct cs as [|c2 [|c3 cs]]; reflexivity.
Qed.

(** C9 counterexample: an empty extraction checks no claim, and the
    confidence returned is 0.95, not 0.8. *)
Lemma fact_checker_no_claims_confidence :
  let r := FactChecker.process Samples.fact_world_no_claims "draft" "query" [] in
  FactChecker.fc_claims_checked r = 0%nat /\
  FactChecker.fc_confidence r = (19 # 20)%Q /\
  Qeq_bool (FactChecker.fc_confidence r) (4 # 5)%Q = false.
Proof. vm_compute. split; [reflexivity|split; reflexivity]. Qed.

End AgentClaims.

(* ================================================================= *)
(** ** Further properties of the quota ledger *)
(* ================================================================= *)

Module LedgerFacts.

Import Quota.

Lemma get_record_usage (qm : QuotaManager) (s s' : string) :
  get (usage (record_usage qm s)) s' = (get (usage qm) s' + if String.eqb s s' then 1 else 0)%Z.
Proof.
  unfold get, record_usage. cbn [usage save_usage counts].
  rewrite lookup_insert.
  destruct (String.eqb_spec s s') as [<-|Hne].
  - rewrite decide_True by reflexivity. reflexivity.
  - rewrite decide_False by exact Hne. simpl. lia.
Qed.

Lemma month_record_usage (qm : QuotaManager) (s : string) :
  month (usage (record_usage qm s)) = month (usage qm).
Proof. reflexivity. Qed.

Lemma can_use_brave (qm : QuotaManager) : can_use qm "brave" = (get (usage qm) "brave" <? 2000)%Z.
Proof. reflexivity. Qed.


Lemma iter_record_get (qm : QuotaManager) (s : string) (n : nat) :
  get (usage (Nat.iter n (fun q => record_usage q s) qm)) s = (get (usage qm) s + Z.of_nat n)%Z.
Proof.
  induction n as [|n IH]; [simpl; lia|].
  rewrite Nat.iter_succ, get_record_usage, IH, String.eqb_refl. lia.
Qed.

End LedgerFacts.

Module LedgerExtras.

Import Quota LedgerFacts.

(** Loading: the manager built at month [now] always carries the month
    [now]; a counter is the stored one when the file is of month [now],
    and 0 when the file is missing or of another month. *)
Theorem init_loads_or_resets (now : string) (file : option Usage) (s : string) :
  month (usage (init now file)) = now /\
  get (usage (init now file)) s =
    match file with
    | Some u => if String.eqb (month u) now then get u s else 0%Z
    | None => 0%Z
    end.
Proof.
  unfold init, load_usage.
  destruct file as [u|].
  - destruct (String.eqb_spec (month u) now) as [E|E].
    + split; [exact E|reflexivity].
    + split; [reflexivity|].
      unfold create_new_month, get. cbn [usage counts fst].
      rewrite !lookup_insert.
      repeat (case_decide; [reflexivity|]). reflexivity.
  - split; [reflexivity|].
    unfold create_new_month, get. cbn [usage counts fst].
    rewrite !lookup_insert.
    repeat (case_decide; [reflexivity|]). reflexivity.
Qed.

(** [record_usage(service)] adds one to that service's counter and leaves
    every other counter and the month unchanged. *)
Theorem record_usage_counts (qm : QuotaManager) (service other : string) :
  get (usage (record_usage qm service)) service = (get (usage qm) service + 1)%Z /\
  (other <> service -> get (usage (record_usage qm service)) other = get (usage qm) other) /\
  month (usage (record_usage qm service)) = month (usage qm).
Proof.
  split; [|split].
  - rewrite get_record_usage, String.eqb_refl. reflexivity.
  - intros Hne. rewrite get_record_usage.
    destruct (String.eqb_spec service other) as [E|_]; [congruence|lia].
  - reflexivity.
Qed.

(** [can_use] and [get_remaining] agree: a service is usable exactly when
    its remaining quota is positive or unlimited (the remaining quota is
    [None], [inf] in the source, for a service without a limit). *)
Theorem can_use_iff_remaining (qm : QuotaManager) (service : string) :
  can_use qm service = match get_remaining qm service with
                       | Some r => (0 <? r)%Z
                       | None => true
                       end.
Proof.
  unfold can_use, get_remaining.
  destruct (MONTHLY_QUOTAS !! service) as [limit|]; [|reflexivity].
  destruct (Z.ltb_spec (get (usage qm) service) limit);
    destruct (Z.ltb_spec 0 (Z.max 0 (limit - get (usage qm) service))); lia.
Qed.

(** A ledger started for a fresh month grants Brave exactly 2000 uses:
    after [n] recorded uses, [can_use("brave")] holds iff [n < 2000], and
    the remaining quota is [max 0 (2000 - n)]. *)
Theorem fresh_ledger_brave_budget (now : string) (n : nat) :
  let qm := Nat.iter n (fun q => record_usage q "brave") (init now None) in
  can_use qm "brave" = (Z.of_nat n <? 2000)%Z /\
  get_remaining qm "brave" = Some (Z.max 0 (2000 - Z.of_nat n)).
Proof.
  cbv zeta. rewrite can_use_brave.
  unfold get_remaining. change (MONTHLY_QUOTAS !! "brave") with (Some 2000%Z).
  rewrite iter_record_get.
  replace (get (usage (init now None)) "brave") with 0%Z by reflexivity.
  split; reflexivity.
Qed.

End LedgerExtras.

(* ================================================================= *)
(** ** Further properties of the web search gateway *)
(* ================================================================= *)

Module GatewayFacts.

Import Quota Search LedgerFacts.

Lemma tier1_length env q cnt st : (length (fst (tier1 env q cnt st)) <= cnt)%nat.
Proof.
  unfold tier1, search_brave.
  destruct (brave_key env && can_use (quota st) "brave"); [|simpl; lia].
  destruct (brave_key env); [|simpl; lia].
  destruct (can_use (quota (log_call "brave" st)) "brave"); [|simpl; lia].
  destruct (brave_reply env); simpl; try lia.
  rewrite length_map, length_firstn. lia.
Qed.

Lemma search_tavily_length env q cnt st : (length (fst (search_tavily env q cnt st)) <= cnt)%nat.
Proof.
  unfold search_tavily.
  destruct (tavily_key env); [|simpl; lia].
  destruct (can_use (quota st) "tavily"); [|simpl; lia].
  destruct (tavily_reply env); simpl; try lia.
  rewrite length_firstn. lia.
Qed.

Lemma knowledge_shape env q st :
  let resp := fst (groq_knowledge_fallback env q st) in
  (length (results resp) <= 1)%nat /\ count resp = Z.of_nat (length (results resp)) /\
  success resp = (0 <? length (results resp))%nat.
Proof. unfold groq_knowledge_fallback. destruct (groq_reply env); simpl; repeat split; lia. Qed.









End GatewayFacts.

Module GatewayExtras.

Import Quota Search LedgerFacts GatewayFacts.

(** Every [smart_search] response is consistent: its [count] is the
    number of results, [success] holds exactly when there is a result,
    and it never holds more than [max count 1] results (the knowledge
    fallback adds one result even when [count] is 0). *)
Theorem smart_search_response_shape (env : SearchEnv) (q : string) (cnt : nat) (st : SearchState) :
  let resp := fst (smart_search env q cnt st) in
  (length (results resp) <= Nat.max cnt 1)%nat /\
  count resp = Z.of_nat (length (results resp)) /\
  success resp = (0 <? length (results resp))%nat.
Proof.
  cbv zeta. unfold smart_search.
  pose proof (tier1_length env q cnt st) as L1.
  destruct (tier1 env q cnt st) as [r1 st1]. cbn [fst] in L1.
  destruct r1 as [|x xs].
  - destruct (tavily_key env && can_use (quota st1) "tavily").
    + pose proof (search_tavily_length env q cnt (log_call "tavily" st1)) as L2.
      destruct (search_tavily env q cnt (log_call "tavily" st1)) as [r s]. cbn [fst] in L2.
      destruct r as [|y ys].
      * destruct (knowledge_shape env q (log_call "groq_knowledge" s)) as [A [B C]].
        split; [lia|split; assumption].
      * cbn [fst results count success]. split; [lia|split; reflexivity].
    + destruct (knowledge_shape env q (log_call "groq_knowledge" st1)) as [A [B C]].
      split; [lia|split; assumption].
  - cbn [fst results count success]. split; [lia|split; reflexivity].
Qed.

(** With [count = 0] no search tier can return a result, so [smart_search]
    always ends in the knowledge fallback. *)
Theorem smart_search_count_zero (env : SearchEnv) (q : string) (st : SearchState) :
  exists st', smart_search env q 0 st = groq_knowledge_fallback env q st'.
Proof.
  unfold smart_search.
  pose proof (tier1_length env q 0 st) as L1.
  destruct (tier1 env q 0 st) as [r1 st1]. cbn [fst] in L1.
  destruct r1 as [|x xs]; [|simpl in L1; lia].
  destruct (tavily_key env && can_use (quota st1) "tavily").
  - pose proof (search_tavily_length env q 0 (log_call "tavily" st1)) as L2.
    destruct (search_tavily env q 0 (log_call "tavily" st1)) as [r s]. cbn [fst] in L2.
    destruct r as [|y ys]; [|simpl in L2; lia].
    eexists; reflexivity.
  - eexists; reflexivity.
Qed.



(** [search_news] with Brave configured, within quota and answering 200:
    the results are cut to [count], but the [count] field is the number
    of items Brave returned, so it exceeds the number of results whenever
    Brave returns more than [count] items; one Brave use is recorded. *)
Theorem search_news_count_field (env : SearchEnv) (items : list (RawItem * string * string))
    (q : string) (cnt : nat) (st : SearchState)
    (Hkey : brave_key env = true) (Hq : can_use (quota st) "brave" = true) :
  exists rs,
    search_news env (NewsItems items) q cnt st =
      (NewsResults rs (Z.of_nat (length items)), record "brave" st) /\
    length rs = Nat.min cnt (length items) /\
    get (usage (quota (record "brave" st))) "brave" = (get (usage (quota st)) "brave" + 1)%Z.
Proof.
  unfold search_news. rewrite Hkey, Hq. cbn [negb orb].
  eexists. split; [reflexivity|]. split.
  - rewrite length_map, length_firstn. reflexivity.
  - unfold record. cbn [quota]. rewrite get_record_usage, String.eqb_refl. reflexivity.
Qed.

Lemma search_news_count_field_witness :
  exists rs,
    search_news Samples.env_brave_only
      (NewsItems [("a", "u1", "d1", "1h", "h1"); ("b", "u2", "d2", "2h", "h2");
                  ("c", "u3", "d3", "3h", "h3")]) "q" 1 Samples.search_state0 =
      (NewsResults rs 3%Z, record "brave" Samples.search_state0) /\
    length rs = 1%nat /\
    get (usage (quota (record "brave" Samples.search_state0))) "brave" =
      (get (usage (quota Samples.search_state0)) "brave" + 1)%Z.
Proof.
  apply (search_news_count_field Samples.env_brave_only
           [("a", "u1", "d1", "1h", "h1"); ("b", "u2", "d2", "2h", "h2");
            ("c", "u3", "d3", "3h", "h3")] "q" 1 Samples.search_state0);
    reflexivity.
Defined.

End GatewayExtras.

(* ================================================================= *)
(** ** Further properties of the model router *)
(* ================================================================= *)

Module RouterMoreFacts.

Import Router RouterFacts.

Lemma split_no_sep (sep s : string) : contains sep s = false -> split sep s = [s].
Proof.
  unfold contains, split. intros H. simpl.
  destruct (String.index 0 sep s); [discriminate|reflexivity].
Qed.

Lemma split_fuel_nonempty (fuel : nat) (sep s : string) : split_fuel fuel sep s <> [].
Proof. destruct fuel; simpl; [discriminate|destruct (String.index 0 sep s); discriminate]. Qed.

Lemma split_has_second (sep s : string) :
  contains sep s = true -> exists x, nth_error (split sep s) 1 = Some x.
Proof.
  unfold contains, split. intros H. simpl.
  destruct (String.index 0 sep s) as [i|]; [|discriminate].
  simpl. destruct (split_fuel (String.length s) sep
                     (substring (i + String.length sep) (String.length s - (i + String.length sep)) s))
    as [|x xs] eqn:E.
  - exfalso. exact (split_fuel_nonempty _ _ _ E).
  - exists x. reflexivity.
Qed.

Lemma existsb_skipn {A} (f : A -> bool) (n : nat) (l : list A) :
  existsb f l = false -> existsb f (skipn n l) = false.
Proof.
  revert l. induction n as [|n IH]; intros l H; [exact H|].
  destruct l as [|x l]; [reflexivity|]. simpl in H |- *.
  apply orb_false_iff in H as [_ H]. apply IH, H.
Qed.

(** The provider chosen by automatic routing is configured, except Gemini
    (the default); OpenAI is chosen only when Ollama is not available. *)
Lemma auto_route_choice (cfg : Config) (w : World) (message sp : string) (fast : bool) :
  let '(p, _, _, _) := auto_route cfg w message sp fast in
  p = "gemini" \/
  (p = "groq" /\ groq_available cfg = true) \/
  (p = "openrouter" /\ openrouter_available cfg = true) \/
  (p = "xai" /\ xai_available cfg = true) \/
  (p = "ollama" /\ ollama_is_available cfg = true) \/
  (p = "openai" /\ openai_api_key cfg = true /\ ollama_is_available cfg = false).
Proof.
  unfold auto_route. cbv zeta.
  do 2 match goal with |- context [match ?x with (a, b) => _ end] =>
    match x with if _ then _ else _ => destruct x end end.
  cbn beta iota.
  match goal with |- context [if ?c then (if openrouter_available cfg then _ else _) else _] =>
    destruct (any_in vision_keywords (lower message)); [|destruct c] end; [| |destruct fast];
    destruct cfg as [[] [] [] [] [] [] []]; cbn; intuition.
Qed.


(** The verifier's call is always answered by Gemini: directly when the
    draft came from Groq, by the safety net otherwise. *)
Lemma verification_call_gemini (cfg : Config) (w : World) (resp : string)
    (ctx : CrossVerifier.CVContext) :
  exists r, snd (CrossVerifier.verification_call cfg w resp ctx) = inr r /\
            provider r = Some "gemini" /\ response r = gemini_text cfg w.
Proof.
  unfold CrossVerifier.verification_call, CrossVerifier.verifier_provider, gemini_text.
  destruct (String.eqb (default "unknown" (CrossVerifier.cv_provider_used ctx)) "groq").
  - unfold run_generate, generate, primary, gemini_generate, mbind, try_except, mret, raise, invoke.
    cbn [String.eqb Ascii.eqb Bool.eqb andb negb orb existsb].
    destruct (gemini_api_key cfg); cbn; try destruct (w_gemini w); eexists; (split; [reflexivity|split; reflexivity]).
  - rewrite forced_generate_is_safety_net by (simpl; auto).
    unfold safety_net, gemini_generate, mbind, try_except, mret, raise, invoke.
    destruct (gemini_api_key cfg); cbn; try destruct (w_gemini w); eexists; (split; [reflexivity|split; reflexivity]).
Qed.

(** A Gemini reply that is not an answer is an error text. *)
Lemma gemini_text_error (cfg : Config) (w : World) :
  (gemini_api_key cfg = false \/ forall s, w_gemini w <> GeminiOk s) ->
  contains "SAFE" (upper (take 10 (gemini_text cfg w))) = false /\
  String.prefix "Error" (gemini_text cfg w) = true.
Proof.
  intros H. unfold gemini_text.
  destruct (gemini_api_key cfg).
  - destruct H as [H|H]; [discriminate|].
    destruct (w_gemini w) as [s|code body| |m]; [exfalso; exact (H s eq_refl)| | |];
      split; reflexivity.
  - split; reflexivity.
Qed.

(** The Cross-Verifier when Gemini does not answer: the draft is marked
    unverified and replaced by Gemini's error text. *)
Lemma cross_verifier_gemini_down (cfg : Config) (w : World) (resp : string)
    (ctx : CrossVerifier.CVContext) :
  (gemini_api_key cfg = false \/ forall s, w_gemini w <> GeminiOk s) ->
  CrossVerifier.process cfg w resp ctx =
    CrossVerifier.mkCVR false (gemini_text cfg w)
      (Some (Some "Safety concerns addressed by Cross-Verifier.")).
Proof.
  intros H. destruct (gemini_text_error cfg w H) as [Hs _].
  unfold CrossVerifier.process.
  destruct (verification_call_gemini cfg w resp ctx) as [r [E [_ Er]]].
  rewrite E, Er, Hs. reflexivity.
Qed.

End RouterMoreFacts.

Module RouterExtras.

Import Router RouterFacts RouterMoreFacts.

(** Automatic routing only chooses a provider that is configured, or
    Gemini as the default; OpenAI is chosen only when Ollama is not
    available. *)
Theorem auto_route_configured (cfg : Config) (w : World) (message sp : string) (fast : bool) :
  let '(p, _, _, _) := auto_route cfg w message sp fast in
  p = "gemini" \/
  (p = "groq" /\ groq_available cfg = true) \/
  (p = "openrouter" /\ openrouter_available cfg = true) \/
  (p = "xai" /\ xai_available cfg = true) \/
  (p = "ollama" /\ ollama_is_available cfg = true) \/
  (p = "openai" /\ openai_api_key cfg = true /\ ollama_is_available cfg = false).
Proof. exact (auto_route_choice cfg w message sp fast). Qed.

(** With a history of well-formed entries and Groq and Ollama answering,
    an automatically routed call is served by the provider the routing
    chose, at the first attempt and with [fallback = False], unless that
    provider is OpenAI. *)
Theorem auto_served_by_choice (cfg : Config) (w : World) (message sp : string)
    (history : list HistItem) (fast : bool) (g o : string)
    (Hh : existsb hist_bad history = false) (Hg : w_groq w = Search.GroqText g)
    (Ho : w_ollama w = OllamaText o) :
  let '(p, _, _, _) := auto_route cfg w message sp fast in
  p <> "openai" ->
  exists r, run_generate cfg w message sp history "auto" fast = ([p], inr r) /\
            provider r = Some p /\ fallback r = false.
Proof.
  unfold run_generate, generate. rewrite String.eqb_refl.
  pose proof (auto_route_choice cfg w message sp fast) as C.
  destruct (auto_route cfg w message sp fast) as [[[p sp'] c] v]. cbn beta iota. intros Hp.
  assert (Hh5 : existsb hist_bad (last_n 5 history) = false) by (apply existsb_skipn; exact Hh).
  destruct C as [->|[[-> A]|[[-> A]|[[-> A]|[[-> A]|[-> _]]]]]]; [| | | | |congruence].
  all: unfold primary, groq_generate, chat_generate, gemini_generate, ollama_invoke, parse_action,
         read_local, mbind, try_except, mret, raise, invoke; cbn beta iota zeta.
  all: cbn [String.eqb Ascii.eqb Bool.eqb andb negb orb].
  all: rewrite ?A, ?Hg, ?Ho, ?Hh, ?Hh5; cbn [andb negb orb].
  all: split_all.
  all: eexists; (split; [reflexivity|split; reflexivity]).
Qed.

Lemma auto_served_by_choice_witness :
  existsb hist_bad [] = false /\ w_groq Samples.world_all_ok = Search.GroqText "groq answer" /\
  w_ollama Samples.world_all_ok = OllamaText "ollama answer" /\
  let '(p, _, _, _) := auto_route Samples.cfg_groq_gemini Samples.world_all_ok "hello" "" false in
  p <> "openai" ->
  exists r, run_generate Samples.cfg_groq_gemini Samples.world_all_ok "hello" "" [] "auto" false
              = ([p], inr r) /\ provider r = Some p /\ fallback r = false.
Proof.
  split; [reflexivity|split; [reflexivity|split; [reflexivity|]]].
  exact (auto_served_by_choice Samples.cfg_groq_gemini Samples.world_all_ok "hello" "" [] false
           "groq answer" "ollama answer" eq_refl eq_refl eq_refl).
Defined.

(** When automatic routing chooses OpenAI, which has no branch in the
    router, no provider is tried before the Gemini safety net (Ollama is
    then unavailable): the call is exactly the safety net, with the
    routed system prompt. *)
Theorem auto_openai_goes_to_safety_net (cfg : Config) (w : World) (message sp : string)
    (history : list HistItem) (fast : bool) :
  let '(p, sp', _, _) := auto_route cfg w message sp fast in
  p = "openai" ->
  run_generate cfg w message sp history "auto" fast = safety_net cfg w message sp' history [].
Proof.
  unfold run_generate, generate. rewrite String.eqb_refl.
  pose proof (auto_route_choice cfg w message sp fast) as C.
  destruct (auto_route cfg w message sp fast) as [[[p sp'] c] v]. cbn beta iota. intros ->.
  destruct C as [H|[[H _]|[[H _]|[[H _]|[[H _]|[_ [_ Ho]]]]]]]; try discriminate H.
  unfold primary, mbind, try_except, mret.
  cbn [String.eqb Ascii.eqb Bool.eqb andb negb orb].
  rewrite Ho. reflexivity.
Qed.

(** Action parsing of a Groq reply that asks to create a Jira task: with
    a ["|"] the Jira result is appended; without one, indexing the split
    raises [IndexError], which is caught and reported in the reply. It
    never raises. *)
Theorem parse_action_outcome (w : World) (r : string) (t : list string)
    (H : contains "ACTION: CREATE_TASK" r = true) :
  parse_action w r t =
    (t, inr (if contains "|" r
             then r ++ nl ++ nl ++ "[SYSTEM] " ++ w_jira_create w
             else r ++ nl ++ nl ++ "[SYSTEM] Failed to execute action: list index out of range")).
Proof.
  unfold parse_action. rewrite H.
  destruct (contains "|" r) eqn:E.
  - destruct (split_has_second _ _ E) as [x Hx].
    unfold try_except, mbind. cbv zeta. rewrite Hx. reflexivity.
  - unfold try_except, mbind. cbv zeta. rewrite (split_no_sep _ _ E). reflexivity.
Qed.

Lemma parse_action_outcome_witness :
  contains "ACTION: CREATE_TASK" "ACTION: CREATE_TASK" = true /\
  parse_action Samples.world_all_ok "ACTION: CREATE_TASK" [] =
    ([], inr (if contains "|" "ACTION: CREATE_TASK"
              then "ACTION: CREATE_TASK" ++ nl ++ nl ++ "[SYSTEM] " ++ w_jira_create Samples.world_all_ok
              else "ACTION: CREATE_TASK" ++ nl ++ nl
                   ++ "[SYSTEM] Failed to execute action: list index out of range")).
Proof.
  split; [reflexivity|].
  apply (parse_action_outcome Samples.world_all_ok "ACTION: CREATE_TASK" []). reflexivity.
Defined.

(** A call forced to ["gemini"] does not read [is_complex], so it is
    served by Gemini's own branch ([fallback = False]), unless Gemini's
    adapter raises on a malformed history entry: then the backup is
    skipped (it reads [is_complex]) and the safety net raises the same
    way, giving the apology with the [AttributeError] text naming the
    type of the first malformed entry among the last five. *)
Theorem forced_gemini_outcome (cfg : Config) (w : World) (message sp : string)
    (history : list HistItem) (fast : bool) :
  if gemini_api_key cfg && existsb hist_bad (last_n 5 history) then
    run_generate cfg w message sp history "gemini" fast =
      (["gemini"; "gemini"],
       inr (mkRes apology None None true
              (Some ("'" ++ first_bad_type (last_n 5 history) ++ "' object has no attribute 'get'"))))
  else
    exists r, run_generate cfg w message sp history "gemini" fast = (["gemini"], inr r) /\
              provider r = Some "gemini" /\ model r = Some "gemini-1.5-flash" /\
              fallback r = false.
Proof.
  unfold run_generate, generate, primary, backup, safety_net, gemini_generate, read_local,
    mbind, try_except, mret, raise, invoke.
  cbn [String.eqb Ascii.eqb Bool.eqb andb negb orb].
  destruct (gemini_api_key cfg); cbn [andb negb].
  - destruct (existsb hist_bad (last_n 5 history)); cbn.
    + destruct (ollama_is_available cfg); reflexivity.
    + destruct (w_gemini w); eexists; (split; [reflexivity|repeat split]).
  - eexists; split; [reflexivity|repeat split].
Qed.

(** Whatever provider wrote the draft, the Cross-Verifier's call is
    answered by Gemini. *)
Theorem verifier_always_served_by_gemini (cfg : Config) (w : World) (resp : string)
    (ctx : CrossVerifier.CVContext) :
  CrossVerifier.served_by cfg w resp ctx = Some "gemini".
Proof.
  unfold CrossVerifier.served_by.
  destruct (verification_call_gemini cfg w resp ctx) as [r [E [P _]]].
  rewrite E. exact P.
Qed.

(** When Gemini is not configured or does not answer, the Cross-Verifier
    marks every draft unverified and returns Gemini's error text (which
    starts with ["Error"]) as the corrected response. *)
Theorem cross_verifier_rejects_when_gemini_down (cfg : Config) (w : World) (resp : string)
    (ctx : CrossVerifier.CVContext)
    (H : gemini_api_key cfg = false \/ forall s, w_gemini w <> GeminiOk s) :
  CrossVerifier.cv_verified (CrossVerifier.process cfg w resp ctx) = false /\
  String.prefix "Error" (CrossVerifier.cv_response (CrossVerifier.process cfg w resp ctx)) = true.
Proof.
  rewrite (cross_verifier_gemini_down cfg w resp ctx H).
  split; [reflexivity|]. exact (proj2 (gemini_text_error cfg w H)).
Qed.

Lemma cross_verifier_rejects_when_gemini_down_witness :
  (gemini_api_key Samples.cfg_groq_gemini = false \/
   forall s, w_gemini Samples.world_all_fail <> GeminiOk s) /\
  CrossVerifier.cv_verified
    (CrossVerifier.process Samples.cfg_groq_gemini Samples.world_all_fail "Drink water."
       (CrossVerifier.mkCVC (Some "hydration?") (Some "groq"))) = false /\
  String.prefix "Error"
    (CrossVerifier.cv_response
       (CrossVerifier.process Samples.cfg_groq_gemini Samples.world_all_fail "Drink water."
          (CrossVerifier.mkCVC (Some "hydration?") (Some "groq")))) = true.
Proof.
  assert (H : gemini_api_key Samples.cfg_groq_gemini = false \/
              forall s, w_gemini Samples.world_all_fail <> GeminiOk s)
    by (right; intros s; discriminate).
  split; [exact H|].
  exact (cross_verifier_rejects_when_gemini_down Samples.cfg_groq_gemini Samples.world_all_fail
           "Drink water." (CrossVerifier.mkCVC (Some "hydration?") (Some "groq")) H).
Defined.

End RouterExtras.

(* ================================================================= *)
(** ** Further properties of the agents and the orchestrator *)
(* ================================================================= *)

Module AgentFacts.

Import Py Search.
Local Open Scope Q_scope.

Lemma Forall_firstn_any {A} (P : A -> Prop) (n : nat) (l : list A) :
  Forall P l -> Forall P (firstn n l).
Proof.
  revert l; induction n as [|n IH]; intros [|x l] H; simpl; auto.
  inversion H; subst. constructor; auto.
Qed.

(** Every claim kept by [_extract_claims] is non-empty and is not a
    Markdown heading; at most five are kept. *)
Lemma extract_claims_shape (fw : FactChecker.FactWorld) (r : string) :
  (length (FactChecker.extract_claims fw r) <= 5)%nat /\
  Forall (fun c => c <> "" /\ String.prefix "#" c = false) (FactChecker.extract_claims fw r).
Proof.
  unfold FactChecker.extract_claims.
  destruct (FactChecker.fw_extract fw) as [t|e]; try (split; [simpl; lia|constructor]).
  split; [rewrite length_firstn; lia|].
  apply Forall_firstn_any. apply List.Forall_map. apply List.Forall_forall. intros c Hc.
  apply list_elem_of_In in Hc. apply list_elem_of_filter in Hc as [Hc _].
  apply Is_true_true_1 in Hc. apply andb_prop in Hc as [H1 H2].
  apply negb_true_iff in H1, H2. apply String.eqb_neq in H1. split; assumption.
Qed.

Lemma verify_claim_confidence_range (fw : FactChecker.FactWorld) (c q : string) :
  1 # 10 <= FactChecker.vr_confidence (FactChecker.verify_claim fw c q) <= 9 # 10.
Proof.
  unfold FactChecker.verify_claim.
  destruct (negb _); [cbn; lra|].
  destruct (FactChecker.fw_verify fw c) as [v|e]; [|cbn; lra].
  unfold FactChecker.verdict.
  destruct (contains "supported" (lower v)); [cbn; lra|].
  destruct (contains "contradicted" (lower v)); cbn; lra.
Qed.

Lemma sumQ_bounds (a b : Q) (xs : list Q) :
  Forall (fun x => a <= x <= b) xs ->
  inject_Z (Z.of_nat (length xs)) * a <= FactChecker.sumQ xs /\
  FactChecker.sumQ xs <= inject_Z (Z.of_nat (length xs)) * b.
Proof.
  unfold FactChecker.sumQ.
  induction 1 as [|x xs [Ha Hb] _ [IH1 IH2]]; cbn [fold_right length].
  - change (inject_Z (Z.of_nat 0)) with 0. rewrite !Qmult_0_l. split; apply Qle_refl.
  - rewrite Nat2Z.inj_succ, <- Z.add_1_r, inject_Z_plus, !Qmult_plus_distr_l.
    change (inject_Z 1) with 1. rewrite !Qmult_1_l. split; lra.
Qed.

Lemma mean_bounds (a b : Q) (xs : list Q) :
  xs <> [] -> Forall (fun x => a <= x <= b) xs ->
  a <= FactChecker.sumQ xs / inject_Z (Z.of_nat (length xs)) <= b.
Proof.
  intros Hne H. destruct (sumQ_bounds a b xs H) as [H1 H2].
  assert (Hp : 0 < inject_Z (Z.of_nat (length xs))).
  { destruct xs as [|x xs]; [congruence|].
    unfold Qlt. simpl. lia. }
  split.
  - apply Qle_shift_div_l; [exact Hp|]. rewrite Qmult_comm. exact H1.
  - apply Qle_shift_div_r; [exact Hp|]. rewrite Qmult_comm. exact H2.
Qed.

Lemma calculate_confidence_nonempty (vs : list FactChecker.VerifyResult) :
  vs <> [] ->
  FactChecker.calculate_confidence vs =
    FactChecker.sumQ (map FactChecker.vr_confidence vs)
      / inject_Z (Z.of_nat (length (map FactChecker.vr_confidence vs))).
Proof. destruct vs; [congruence|reflexivity]. Qed.

Lemma process_confidence_range (fw : FactChecker.FactWorld) (m q : string)
    (srcs : list SearchResult) :
  1 # 10 <= FactChecker.fc_confidence (FactChecker.process fw m q srcs) <= 19 # 20.
Proof.
  unfold FactChecker.process. cbv zeta.
  destruct (FactChecker.extract_claims fw m) as [|c cs]; [cbn; lra|].
  cbn [FactChecker.fc_confidence].
  set (vs := map (fun c0 => FactChecker.verify_claim fw c0 q) (firstn 3 (c :: cs))).
  assert (Hne : vs <> []) by (unfold vs; cbn; discriminate).
  rewrite (calculate_confidence_nonempty vs Hne).
  assert (Hvs : Forall (fun x => 1 # 10 <= x <= 9 # 10) (map FactChecker.vr_confidence vs)).
  { apply List.Forall_forall. intros x Hx. apply in_map_iff in Hx as [r [<- Hr]].
    unfold vs in Hr. apply in_map_iff in Hr as [c' [<- _]].
    apply verify_claim_confidence_range. }
  assert (Hne' : map FactChecker.vr_confidence vs <> []).
  { destruct vs; [congruence|discriminate]. }
  destruct (mean_bounds _ _ _ Hne' Hvs) as [H1 H2]. split; lra.
Qed.

(** A verified fact-check hands back the text it was given. *)
Lemma fact_checker_keeps_verified (fw : FactChecker.FactWorld) (m q : string)
    (srcs : list SearchResult) :
  FactChecker.fc_verified (FactChecker.process fw m q srcs) = true ->
  FactChecker.fc_verified_response (FactChecker.process fw m q srcs) = m.
Proof.
  unfold FactChecker.process. cbv zeta.
  destruct (FactChecker.extract_claims fw m); [reflexivity|].
  cbn [FactChecker.fc_verified FactChecker.fc_verified_response]. intros ->. reflexivity.
Qed.

Lemma critic_approves (u : string) (ctx : Critic.CriticContext) (rv : string) :
  Critic.cr_approved (Critic.process u ctx rv) = true.
Proof.
  unfold Critic.process.
  destruct (option_eq_bool _ "general"); [reflexivity|].
  destruct (_ && _); [reflexivity|].
  destruct (Critic.is_approved rv); [reflexivity|].
  destruct (contains "IMPROVED:" rv); reflexivity.
Qed.

(** The intent and the agent reported are the routing decision. *)
Lemma process_message_route (ow : Orchestrator.OrchWorld) (m : string) (vf : bool)
    (f : option string) :
  let '(i, a, _) := Orchestrator.route ow m f in
  Orchestrator.o_intent (snd (Orchestrator.process_message ow m vf f)) = i /\
  Orchestrator.o_agent_used (snd (Orchestrator.process_message ow m vf f)) = a.
Proof.
  unfold Orchestrator.process_message.
  destruct (Orchestrator.route ow m f) as [[i a] rt]. split; reflexivity.
Qed.

Lemma fast_path_cases (m : string) :
  Orchestrator.fast_path m = (Some "general", Some "GeneralAgent") \/
  Orchestrator.fast_path m = (Some "tool", Some "ToolAgent") \/
  Orchestrator.fast_path m = (Some "search", Some "SearchAgent") \/
  Orchestrator.fast_path m = (None, None).
Proof.
  unfold Orchestrator.fast_path. cbv zeta.
  repeat match goal with |- context [if ?c then _ else _] => destruct c end; auto.
Qed.

Lemma router_agent_process_valid (c : string) :
  let '(i, a) := RouterAgent.process c in
  In i RouterAgent.valid_intents /\ a = RouterAgent.get_agent_for_intent i /\
  mem a Orchestrator.agent_names = true /\
  (mem (lower (strip c)) RouterAgent.valid_intents = true -> i = lower (strip c)).
Proof.
  unfold RouterAgent.process. cbv zeta.
  destruct (mem (lower (strip c)) RouterAgent.valid_intents) eqn:E.
  - assert (Hi : In (lower (strip c)) RouterAgent.valid_intents).
    { unfold mem in E. apply existsb_exists in E as [x [Hx Ex]].
      apply String.eqb_eq in Ex. subst x. exact Hx. }
    split; [exact Hi|split; [reflexivity|split; [|auto]]].
    generalize dependent (lower (strip c)). intros i _ Hi.
    simpl in Hi. repeat (destruct Hi as [<-|Hi]; [reflexivity|]). contradiction.
  - split; [simpl; tauto|split; [reflexivity|split; [reflexivity|discriminate]]].
Qed.

End AgentFacts.

Module AgentExtras.

Import Py Search AgentFacts.

(** The Fact-Checker's [_extract_claims] keeps at most five claims, none
    of them empty and none starting with ["#"]; when the extraction call
    raises it yields no claim. *)
Theorem extract_claims_bounded (fw : FactChecker.FactWorld) (response : string) :
  (length (FactChecker.extract_claims fw response) <= 5)%nat /\
  Forall (fun c => c <> "" /\ String.prefix "#" c = false)
         (FactChecker.extract_claims fw response) /\
  (forall e, FactChecker.fw_extract fw = GroqRaises e -> FactChecker.extract_claims fw response = []).
Proof.
  destruct (extract_claims_shape fw response) as [H1 H2].
  split; [exact H1|split; [exact H2|]].
  intros e E. unfold FactChecker.extract_claims. rewrite E. reflexivity.
Qed.

(** The confidence returned by the Fact-Checker always lies between 0.1
    and 0.95: every checked claim scores between 0.1 and 0.9, the result
    is their mean, and a response without claims scores 0.95. *)
Theorem fact_checker_confidence_bounds (fw : FactChecker.FactWorld) (message q : string)
    (existing_sources : list SearchResult) :
  (1 # 10 <= FactChecker.fc_confidence (FactChecker.process fw message q existing_sources)
   <= 19 # 20)%Q.
Proof. exact (process_confidence_range fw message q existing_sources). Qed.

(** The Fact-Checker's verdict is [confidence >= 0.6]; a verified response
    is returned unchanged and an unverified one is replaced by the rewrite.
    It verifies at most three claims, while [claims_checked] reports how
    many were extracted (at most five), and its sources extend the ones it
    was given. *)
Theorem fact_checker_outcome (fw : FactChecker.FactWorld) (message q : string)
    (existing_sources : list SearchResult) :
  let r := FactChecker.process fw message q existing_sources in
  FactChecker.fc_verified r = Qle_bool (3 # 5) (FactChecker.fc_confidence r) /\
  FactChecker.fc_verified_response r =
    (if FactChecker.fc_verified r then message
     else FactChecker.rewrite_with_corrections fw message) /\
  (FactChecker.fc_claims_checked r <= 5)%nat /\
  match FactChecker.fc_verification_details r with
  | Some vs => (length vs <= 3)%nat /\ (length vs <= FactChecker.fc_claims_checked r)%nat
  | None => FactChecker.fc_claims_checked r = 0%nat
  end /\
  exists more, FactChecker.fc_sources r = app existing_sources more.
Proof.
  cbv zeta. pose proof (proj1 (extract_claims_shape fw message)) as Hl.
  unfold FactChecker.process. cbv zeta.
  destruct (FactChecker.extract_claims fw message) as [|c cs].
  - cbn. split; [reflexivity|split; [reflexivity|split; [lia|split; [reflexivity|]]]].
    exists []. rewrite app_nil_r. reflexivity.
  - cbn [FactChecker.fc_verified FactChecker.fc_verified_response FactChecker.fc_confidence
         FactChecker.fc_claims_checked FactChecker.fc_verification_details FactChecker.fc_sources].
    split; [reflexivity|split; [reflexivity|split; [exact Hl|split; [|eexists; reflexivity]]]].
    rewrite length_map, length_firstn. split; lia.
Qed.

(** Turning fact-checking on never changes the orchestrator's response:
    the Fact-Checker's text is only used when it verified, and then it is
    the text it was given. *)
Theorem fact_check_keeps_orchestrator_response (ow : Orchestrator.OrchWorld) (m : string)
    (force_agent : option string) :
  Orchestrator.o_response (snd (Orchestrator.process_message ow m true force_agent)) =
  Orchestrator.o_response (snd (Orchestrator.process_message ow m false force_agent)).
Proof.
  unfold Orchestrator.process_message.
  destruct (Orchestrator.route ow m force_agent) as [[i a] rt]. cbv zeta.
  cbn [andb snd Orchestrator.o_response].
  destruct (Orchestrator.in_intents i ["search"; "wellness"]); [|reflexivity].
  match goal with |- (if FactChecker.fc_verified ?v then _ else _) = _ =>
    destruct (FactChecker.fc_verified v) eqn:E; [|reflexivity] end.
  apply fact_checker_keeps_verified. exact E.
Qed.

(** Which review stages the orchestrator runs depends only on the intent
    (and [verify_facts]): the Critic for every intent but ["general"] and
    ["tool"], the Cross-Verifier for ["wellness"], ["protection"] and
    ["research"], the Fact-Checker for ["search"] and ["wellness"] when
    asked. The result is always reported as reviewed, and without
    fact-checking it is unverified with confidence 0. *)
Theorem process_message_stages (ow : Orchestrator.OrchWorld) (m : string) (vf : bool)
    (force_agent : option string) :
  let '(stages, r) := Orchestrator.process_message ow m vf force_agent in
  Orchestrator.o_reviewed r = true /\
  (In "critic" stages <->
     Orchestrator.in_intents (Orchestrator.o_intent r) ["general"; "tool"] = false) /\
  (In "cross_verifier" stages <->
     Orchestrator.in_intents (Orchestrator.o_intent r) ["wellness"; "protection"; "research"] = true) /\
  (In "fact_checker" stages <->
     vf && Orchestrator.in_intents (Orchestrator.o_intent r) ["search"; "wellness"] = true) /\
  (vf = false -> Orchestrator.o_verified r = false /\ Orchestrator.o_confidence r = 0%Q).
Proof.
  unfold Orchestrator.process_message.
  destruct (Orchestrator.route ow m force_agent) as [[i a] rt]. cbv zeta.
  cbn [Orchestrator.o_reviewed Orchestrator.o_intent Orchestrator.o_verified
       Orchestrator.o_confidence].
  destruct (Orchestrator.in_intents i ["general"; "tool"]);
  destruct (Orchestrator.in_intents i ["wellness"; "protection"; "research"]);
  destruct vf; destruct (Orchestrator.in_intents i ["search"; "wellness"]); destruct rt;
  cbn -[Critic.process FactChecker.process];
  rewrite ?critic_approves;
  (split; [reflexivity|]);
  repeat split; intuition discriminate.
Qed.

(** A [force_agent] naming a registered agent bypasses both the fast
    path and the LLM router: that agent is used, the intent is
    ["research"] for the [DeepResearchAgent] and ["analysis"] for any other,
    so the Critic always runs, the Cross-Verifier runs only for the
    [DeepResearchAgent], and the Fact-Checker never runs. *)
Theorem forced_agent_bypasses_router (ow : Orchestrator.OrchWorld) (m : string) (vf : bool)
    (f : string) (Hf : mem f Orchestrator.agent_names = true) :
  let '(stages, r) := Orchestrator.process_message ow m vf (Some f) in
  ~ In "router" stages /\ Orchestrator.o_agent_used r = f /\
  Orchestrator.o_intent r =
    Some (if String.eqb f "DeepResearchAgent" then "research" else "analysis") /\
  In "critic" stages /\ (In "cross_verifier" stages <-> f = "DeepResearchAgent") /\
  ~ In "fact_checker" stages.
Proof.
  unfold Orchestrator.process_message, Orchestrator.route. rewrite Hf.
  destruct (String.eqb f "DeepResearchAgent") eqn:E; cbv zeta;
    [apply String.eqb_eq in E | apply String.eqb_neq in E];
    destruct vf; cbn -[Critic.process FactChecker.process CrossVerifier.process];
    intuition discriminate.
Qed.

Lemma forced_agent_bypasses_router_witness :
  mem "WellnessAgent" Orchestrator.agent_names = true /\
  let '(stages, r) := Orchestrator.process_message Samples.ow_wellness_gemini_down "hmm" true
                        (Some "WellnessAgent") in
  ~ In "router" stages /\ Orchestrator.o_agent_used r = "WellnessAgent" /\
  Orchestrator.o_intent r =
    Some (if String.eqb "WellnessAgent" "DeepResearchAgent" then "research" else "analysis") /\
  In "critic" stages /\ (In "cross_verifier" stages <-> "WellnessAgent" = "DeepResearchAgent") /\
  ~ In "fact_checker" stages.
Proof.
  assert (Hf : mem "WellnessAgent" Orchestrator.agent_names = true) by reflexivity.
  split; [exact Hf|].
  exact (forced_agent_bypasses_router Samples.ow_wellness_gemini_down "hmm" true "WellnessAgent" Hf).
Defined.

(** A message that, stripped and lower-cased, is one of the greetings
    (and no agent is forced) goes to the [GeneralAgent] with intent
    ["general"] and runs no stage at all: the agent's draft is returned
    as is, unverified. *)
Theorem greeting_fast_path (ow : Orchestrator.OrchWorld) (m : string) (vf : bool)
    (Hg : mem (lower (strip m)) Orchestrator.greetings = true) :
  let '(stages, r) := Orchestrator.process_message ow m vf None in
  stages = [] /\ Orchestrator.o_intent r = Some "general" /\
  Orchestrator.o_agent_used r = "GeneralAgent" /\
  Orchestrator.o_response r =
    default "I'm not sure how to help with that."
            (Orchestrator.ar_response (Orchestrator.ow_agent ow "GeneralAgent")) /\
  Orchestrator.o_verified r = false.
Proof.
  assert (Hfp : Orchestrator.fast_path m = (Some "general", Some "GeneralAgent")).
  { unfold Orchestrator.fast_path. cbv zeta. rewrite Hg. reflexivity. }
  unfold Orchestrator.process_message, Orchestrator.route. rewrite Hfp.
  destruct vf; cbv zeta; cbn -[Critic.process FactChecker.process CrossVerifier.process];
    (split; [reflexivity|]); repeat split.
Qed.

Lemma greeting_fast_path_witness :
  mem (lower (strip "  Good Morning ")) Orchestrator.greetings = true /\
  let '(stages, r) := Orchestrator.process_message Samples.ow_wellness_gemini_down
                        "  Good Morning " true None in
  stages = [] /\ Orchestrator.o_intent r = Some "general" /\
  Orchestrator.o_agent_used r = "GeneralAgent" /\
  Orchestrator.o_response r =
    default "I'm not sure how to help with that."
      (Orchestrator.ar_response (Orchestrator.ow_agent Samples.ow_wellness_gemini_down "GeneralAgent")) /\
  Orchestrator.o_verified r = false.
Proof.
  assert (Hg : mem (lower (strip "  Good Morning ")) Orchestrator.greetings = true)
    by (vm_compute; reflexivity).
  split; [exact Hg|].
  exact (greeting_fast_path Samples.ow_wellness_gemini_down "  Good Morning " true Hg).
Defined.

(** The intent router always returns one of its seven intents and the
    agent mapped to it, which is a registered agent; an unknown
    classification becomes ["general"], and a known one (after strip and
    lower-casing) is kept. *)
Theorem router_agent_process_intent (classification : string) :
  let '(intent, route_to) := RouterAgent.process classification in
  In intent RouterAgent.valid_intents /\
  route_to = RouterAgent.get_agent_for_intent intent /\
  mem route_to Orchestrator.agent_names = true /\
  (mem (lower (strip classification)) RouterAgent.valid_intents = true ->
     intent = lower (strip classification)) /\
  (mem (lower (strip classification)) RouterAgent.valid_intents = false ->
     intent = "general" /\ route_to = "GeneralAgent").
Proof.
  pose proof (router_agent_process_valid classification) as V.
  unfold RouterAgent.process in *. cbv zeta in *.
  destruct (mem (lower (strip classification)) RouterAgent.valid_intents);
    destruct V as [V1 [V2 [V3 V4]]];
    (split; [exact V1|split; [exact V2|split; [exact V3|split; [exact V4|]]]]);
    [discriminate|intros _; split; reflexivity].
Qed.

(** With the LLM routing decision taken by [router_agent.process], the
    orchestrator always reports a registered agent and one of the seven
    valid intents, whatever the message, the classifier's reply or the
    forced agent. *)
Theorem orchestrator_agent_registered (ow : Orchestrator.OrchWorld) (classification m : string)
    (vf : bool) (force_agent : option string) :
  let r := snd (Orchestrator.process_message (RouterAgent.with_router ow classification) m vf
                  force_agent) in
  mem (Orchestrator.o_agent_used r) Orchestrator.agent_names = true /\
  exists i, Orchestrator.o_intent r = Some i /\ In i RouterAgent.valid_intents.
Proof.
  cbv zeta.
  pose proof (process_message_route (RouterAgent.with_router ow classification) m vf force_agent)
    as R.
  destruct (Orchestrator.route (RouterAgent.with_router ow classification) m force_agent)
    as [[i a] rt] eqn:E.
  destruct R as [-> ->].
  assert (Hcl : let '(i', a', _) :=
                  match Orchestrator.fast_path m with
                  | (Some i0, Some a0) => (Some i0, a0, false)
                  | _ => (Some (fst (RouterAgent.process classification)),
                          snd (RouterAgent.process classification), true)
                  end in
                mem a' Orchestrator.agent_names = true /\
                exists i0, i' = Some i0 /\ In i0 RouterAgent.valid_intents).
  { pose proof (router_agent_process_valid classification) as V.
    destruct (RouterAgent.process classification) as [ri ra].
    destruct V as [V1 [_ [V3 _]]].
    destruct (fast_path_cases m) as [F|[F|[F|F]]]; rewrite F; cbn [fst snd];
      (split; [first [exact V3|reflexivity]|]);
      eexists; (split; [reflexivity|]); first [exact V1|simpl; tauto]. }
  unfold Orchestrator.route in E. cbn [Orchestrator.ow_routing RouterAgent.with_router] in E.
  destruct force_agent as [f|].
  - destruct (mem f Orchestrator.agent_names) eqn:Ef.
    + injection E as <- <- _. split; [exact Ef|].
      eexists; (split; [reflexivity|]).
      destruct (String.eqb f "DeepResearchAgent"); simpl; tauto.
    + rewrite E in Hcl. exact Hcl.
  - rewrite E in Hcl. exact Hcl.
Qed.

(** For a high-stakes intent (["wellness"], ["protection"], ["research"])
    when the verifier's Gemini is not configured or does not answer, the
    orchestrator returns Gemini's error text in place of the draft, with
    or without fact-checking. *)
Theorem high_stakes_gemini_down_response (ow : Orchestrator.OrchWorld) (m : string) (vf : bool)
    (force_agent : option string)
    (Hi : Orchestrator.in_intents (fst (fst (Orchestrator.route ow m force_agent)))
            ["wellness"; "protection"; "research"] = true)
    (Hg : Router.gemini_api_key (Orchestrator.ow_cfg ow) = false \/
          forall s, Router.w_gemini (Orchestrator.ow_verifier_world ow) <> Router.GeminiOk s) :
  Orchestrator.o_response (snd (Orchestrator.process_message ow m vf force_agent)) =
    RouterFacts.gemini_text (Orchestrator.ow_cfg ow) (Orchestrator.ow_verifier_world ow) /\
  String.prefix "Error" (Orchestrator.o_response (snd (Orchestrator.process_message ow m vf force_agent)))
    = true.
Proof.
  assert (Hr : Orchestrator.o_response (snd (Orchestrator.process_message ow m vf force_agent)) =
    RouterFacts.gemini_text (Orchestrator.ow_cfg ow) (Orchestrator.ow_verifier_world ow)).
  { unfold Orchestrator.process_message.
    destruct (Orchestrator.route ow m force_agent) as [[i a] rt]. cbn [fst] in Hi.
    cbv zeta. rewrite Hi. rewrite RouterMoreFacts.cross_verifier_gemini_down by exact Hg.
    cbn [CrossVerifier.cv_verified CrossVerifier.cv_response negb snd Orchestrator.o_response].
    destruct (vf && Orchestrator.in_intents i ["search"; "wellness"]); [|reflexivity].
    match goal with |- (if FactChecker.fc_verified ?v then _ else _) = _ =>
      destruct (FactChecker.fc_verified v) eqn:E; [|reflexivity] end.
    apply fact_checker_keeps_verified. exact E. }
  split; [exact Hr|]. rewrite Hr.
  exact (proj2 (RouterMoreFacts.gemini_text_error _ _ Hg)).
Qed.

Lemma high_stakes_gemini_down_response_witness :
  Orchestrator.in_intents
    (fst (fst (Orchestrator.route Samples.ow_wellness_gemini_down "hmm" None)))
    ["wellness"; "protection"; "research"] = true /\
  Orchestrator.o_response
    (snd (Orchestrator.process_message Samples.ow_wellness_gemini_down "hmm" true None)) =
    RouterFacts.gemini_text (Orchestrator.ow_cfg Samples.ow_wellness_gemini_down)
      (Orchestrator.ow_verifier_world Samples.ow_wellness_gemini_down) /\
  String.prefix "Error"
    (Orchestrator.o_response
       (snd (Orchestrator.process_message Samples.ow_wellness_gemini_down "hmm" true None))) = true.
Proof.
  assert (Hi : Orchestrator.in_intents
                 (fst (fst (Orchestrator.route Samples.ow_wellness_gemini_down "hmm" None)))
                 ["wellness"; "protection"; "research"] = true) by (vm_compute; reflexivity).
  assert (Hg : Router.gemini_api_key (Orchestrator.ow_cfg Samples.ow_wellness_gemini_down) = false \/
               forall s, Router.w_gemini (Orchestrator.ow_verifier_world Samples.ow_wellness_gemini_down)
                         <> Router.GeminiOk s) by (right; intros s; discriminate).
  split; [exact Hi|].
  exact (high_stakes_gemini_down_response Samples.ow_wellness_gemini_down "hmm" true None Hi Hg).
Defined.

End AgentExtras.
